(** * universal-kyc: document verification and moderation engine

    A shallow embedding of [src/services/ocr.js] and [src/services/kyc.js]
    together with the properties the specification states about them.

    Layout:
    - [Js]: the fragment of JavaScript values the services manipulate
      (JSON values, truthiness, property access, template strings,
      [toLowerCase], [trim]);
    - [StringComparison]: the fuzzy comparator of [utils/stringComparison];
    - [Validation]: the [idType] rule of [kycSchema];
    - [Ocr]: [extractDataFromDocument] and [compareDocumentByType];
    - [KycService]: [updateKycStatus], [getKycById], [getKycWithModeration];
    - [JsInt], [KycListing]: [parseInt] and the paginated listings
      [getAllKycEntries] and [getUserKycEntries];
    - [Sample], [SampleListing]: concrete responses, objects and stores for
      the examples;
    - the theorems, one section per component. *)

From stdpp Require Import gmap strings list fin_maps pretty.

#[local] Set Warnings "-register-all".
#[local] Open Scope string_scope.

(* ===================================================================== *)
(** ** JavaScript values                                                   *)
(* ===================================================================== *)

Module Js.

(** A parsed JSON body, extended with [undefined] and with the built-in
    objects a property read can reach through [Object.prototype].  Objects
    are finite maps from their own property names to values: property
    enumeration order is not kept, which is sound here because every
    consumer below folds the enumerated keys into a conjunction or into
    another object.  Numbers are restricted to integers; only their
    truthiness and their decimal rendering are ever observed. *)
Inductive value : Type :=
| VUndefined
| VNull
| VBool (b : bool)
| VNum (n : Z)
| VStr (s : string)
| VArr (items : list value)
| VObj (fields : gmap string value)
| VBuiltin (name : string).

(** [!!v] *)
Definition truthy (v : value) : bool :=
  match v with
  | VUndefined | VNull => false
  | VBool b => b
  | VNum n => negb (n =? 0)%Z
  | VStr s => negb (String.eqb s "")
  | VArr _ | VObj _ | VBuiltin _ => true
  end.

(** [a || b] *)
Definition or (a b : value) : value := if truthy a then a else b.

(** [o[k]] for an own data property [k].  The names the services read
    ("status", "message", "data", "ocr" and sanitized field names) are not
    properties of primitives or arrays, so those yield [undefined]. *)
Definition get (v : value) (k : string) : value :=
  match v with
  | VObj fields => default VUndefined (fields !! k)
  | _ => VUndefined
  end.

(** The property names of [Object.prototype]. *)
Definition Object_prototype : list string :=
  ["constructor"; "__defineGetter__"; "__defineSetter__"; "hasOwnProperty";
   "__lookupGetter__"; "__lookupSetter__"; "isPrototypeOf";
   "propertyIsEnumerable"; "toString"; "valueOf"; "__proto__";
   "toLocaleString"].

(** What reading [k] yields on an object created by a literal that has no
    property [k] of its own: the member of [Object.prototype] of that name
    (the prototype itself for the accessor "__proto__", a built-in function
    otherwise), or [undefined]. *)
Definition inherited (k : string) : value :=
  if bool_decide (k = "__proto__") then VBuiltin "Object.prototype"
  else if bool_decide (k = "constructor") then VBuiltin "Object"
  else if bool_decide (k ∈ Object_prototype) then VBuiltin k
  else VUndefined.

(** [o[k]] where [o] is an object given by its field map: the object's own
    property when it has one, the inherited member otherwise. *)
Definition prop (fields : gmap string value) (k : string) : value :=
  match fields !! k with
  | Some v => v
  | None => inherited k
  end.

(** [Object.prototype.hasOwnProperty.call(v, k)] for such a name [k]. *)
Definition hasOwn (v : value) (k : string) : bool :=
  match v with
  | VObj fields => bool_decide (is_Some (fields !! k))
  | _ => false
  end.

(** [delete o[k]] *)
Definition delete_prop (v : value) (k : string) : value :=
  match v with
  | VObj fields => VObj (delete k fields)
  | _ => v
  end.

(** [v === "s"] *)
Definition is_string (v : value) (s : string) : bool :=
  match v with
  | VStr s' => String.eqb s' s
  | _ => false
  end.

(** [`${v}`]: the string conversion of template literals. *)
Fixpoint to_string (v : value) : string :=
  match v with
  | VUndefined => "undefined"
  | VNull => "null"
  | VBool true => "true"
  | VBool false => "false"
  | VNum n => pretty n
  | VStr s => s
  | VArr items =>
      String.concat ","
        (map (fun i => match i with
                       | VUndefined | VNull => ""
                       | _ => to_string i
                       end) items)
  | VObj _ => "[object Object]"
  | VBuiltin name =>
      if String.eqb name "Object.prototype" then "[object Object]"
      else "function " +:+ name +:+ "() { [native code] }"
  end.

(** [Object.keys(o)] of an object given by its field map. *)
Definition keys (fields : gmap string value) : list string :=
  (map_to_list fields).*1.

Definition is_upper (c : Ascii.ascii) : bool :=
  let n := Ascii.nat_of_ascii c in (65 <=? n)%nat && (n <=? 90)%nat.

Definition lower_char (c : Ascii.ascii) : Ascii.ascii :=
  if is_upper c then Ascii.ascii_of_nat (Ascii.nat_of_ascii c + 32) else c.

(** [s.toLowerCase()] on the ASCII range; other bytes are kept.  No
    character outside ASCII lower-cases to one of the letters of the five
    document-type names, so dispatch on the result is exact. *)
Fixpoint toLowerCase (s : string) : string :=
  match s with
  | EmptyString => EmptyString
  | String c s' => String (lower_char c) (toLowerCase s')
  end.

Definition is_space (c : Ascii.ascii) : bool :=
  let n := Ascii.nat_of_ascii c in
  ((9 <=? n)%nat && (n <=? 13)%nat) || (n =? 32)%nat.

Fixpoint trimStart (s : string) : string :=
  match s with
  | EmptyString => EmptyString
  | String c s' => if is_space c then trimStart s' else s
  end.

Fixpoint trimEnd (s : string) : string :=
  match s with
  | EmptyString => EmptyString
  | String c s' =>
      match trimEnd s' with
      | EmptyString => if is_space c then EmptyString else String c EmptyString
      | r => String c r
      end
  end.

(** [s.trim()] (ASCII white space). *)
Definition trim (s : string) : string := trimEnd (trimStart s).

End Js.

Import Js.

(* ===================================================================== *)
(** ** The fuzzy comparator                                                *)
(* ===================================================================== *)

Module StringComparison.

(** Edit distance with insertions, deletions and substitutions of single
    characters, each of cost one. *)
Fixpoint levenshtein (a : string) : string → nat :=
  fix against (b : string) : nat :=
    match a with
    | EmptyString => String.length b
    | String x a' =>
        match b with
        | EmptyString => String.length a
        | String y b' =>
            (S (levenshtein a' b) `min` S (against b'))
              `min` (levenshtein a' b' + if Ascii.eqb x y then 0 else 1)
        end
    end.

Section Comparator.

(** The fixed similarity threshold, a ratio [threshold_num /
    threshold_den] bounding the distance divided by the longer length. *)
Variables threshold_num threshold_den : nat.

(** Modelled from the spec: [utils/stringComparison.js] (the function
    [compareStrings] imported by [services/ocr.js]) is not part of the
    available sources.  Section 4.3 describes it as a boolean
    noise-tolerant equality on two normalized strings: two empty strings
    match, an empty string never matches a non-empty one, and otherwise
    the strings match when their normalized edit distance lies below one
    fixed ratio threshold. *)
Definition compareStrings (a b : string) : bool :=
  match a, b with
  | EmptyString, EmptyString => true
  | EmptyString, String _ _ | String _ _, EmptyString => false
  | String _ _, String _ _ =>
      (levenshtein a b * threshold_den
       <? threshold_num * (String.length a `max` String.length b))%nat
  end.

End Comparator.

End StringComparison.

(* ===================================================================== *)
(** ** Submission validation                                               *)
(* ===================================================================== *)

Module Validation.

(** The document types [kycSchema] admits for [idType]:
    [Joi.string().valid(...)], an exact, case-sensitive match. *)
Definition idTypes : list string :=
  ["aadhaar-card"; "passport"; "dl"; "voter-id"; "pan-card"].

Definition idType_valid (v : value) : bool :=
  match v with
  | VStr s => bool_decide (s ∈ idTypes)
  | _ => false
  end.

End Validation.

(* ===================================================================== *)
(** ** services/ocr.js                                                     *)
(* ===================================================================== *)

Module Ocr.

(** *** extractDataFromDocument *)

(** What [axios.post] resolves with: the HTTP status and the parsed body. *)
Record response : Type := Response { status : Z; data : value }.

(** What [axios.post] rejects with; [response] is set when the service
    answered with a failure status and unset for transport failures. *)
Record axiosError : Type :=
  AxiosError { message : string; error_response : option response }.

(** The outcome of [await axios.post(...)]. *)
Inductive posted : Type :=
| Rejected (e : axiosError)
| Resolved (r : option response).

(** An exception raised inside the [try] block. *)
Inductive thrown : Type :=
| Error (msg : string)
| TypeError (msg : string)
| Axios (e : axiosError).

Definition thrown_message (t : thrown) : string :=
  match t with
  | Error msg | TypeError msg => msg
  | Axios e => message e
  end.

(** [error.response]: only axios errors carry one. *)
Definition thrown_response (t : thrown) : option response :=
  match t with
  | Axios e => error_response e
  | _ => None
  end.

(** Lines written with [console.error]. *)
Inductive logged : Type :=
| ErrorExtracting (msg : string)
| ApiErrorResponse (status : Z) (data : value).

(** The body of the [try] block, lines 38-69. *)
Definition try_extract (p : posted) : thrown + value :=
  match p with
  | Rejected e => inl (Axios e)
  | Resolved None => inl (Error "Invalid OCR API response")
  | Resolved (Some response) =>
      if negb (truthy (data response)) then
        inl (Error "Invalid OCR API response")
      else
        let data := data response in
        if negb (is_string (get data "status") "ok") then
          inl (Error ("OCR API error: "
                      +:+ to_string (or (get data "message")
                                        (VStr "Unknown error"))))
        else if negb (truthy (get data "data"))
                || negb (truthy (get (get data "data") "ocr")) then
          inl (Error "OCR data is missing in API response")
        else
          let extractedData := get (get data "data") "ocr" in
          (* a JSON value stored under "hasOwnProperty" shadows the
             inherited method and cannot be called *)
          if hasOwn extractedData "hasOwnProperty" then
            inl (TypeError "extractedData.hasOwnProperty is not a function")
          else if hasOwn extractedData "validState" then
            inr (delete_prop extractedData "validState")
          else
            inr extractedData
  end.

(** The [catch] block, lines 70-84: what it logs. *)
Definition catch_log (t : thrown) : list logged :=
  ErrorExtracting (thrown_message t)
  :: match thrown_response t with
     | Some r => [ApiErrorResponse (status r) (data r)]
     | None => []
     end.

(** [extractDataFromDocument], given the outcome of the request: the lines
    logged, and either the message of the error thrown to the caller or
    the extracted data. *)
Definition extractDataFromDocument (p : posted)
  : list logged * (string + value) :=
  match try_extract p with
  | inr extractedData => ([], inr extractedData)
  | inl error => (catch_log error, inl "OCR extraction failed")
  end.

(** *** compareDocumentByType *)

(** A sanitizer of [utils/setDoc]: called on an object, it returns a
    field map (sanitizers are taken to return, as pure normalizers do);
    the first component is the argument as the call leaves it, so that a
    sanitizer working in place is covered too. *)
Definition sanitizer : Type := value → value * gmap string value.

(** The ten functions imported on lines 7-26. *)
Record sanitizers : Type := Sanitizers {
  sanitizeAadharData : sanitizer;
  sanitizeModKycDataAadhar : sanitizer;
  sanitizePassportData : sanitizer;
  sanitizeModKycDataPassport : sanitizer;
  sanitizePanCardData : sanitizer;
  sanitizeModKycDataPanCard : sanitizer;
  sanitizeDrivingLicenseData : sanitizer;
  sanitizeModKycDataDrivingLicense : sanitizer;
  sanitizeVoterIdData : sanitizer;
  sanitizeModKycDataVoterId : sanitizer
}.

(** The two argument objects and the trace of sanitizer calls. *)
Record heap : Type := Heap {
  ocrData : value;
  kycData : value;
  invoked : list string
}.

Module Field.
(** An element of [comparisonResults]. *)
Record t : Type := Make {
  field : string;
  isMatch : bool;
  ocrValue : value;
  kycValue : value
}.
End Field.

Module Mismatch.
(** An entry of [mismatchResults]. *)
Record t : Type := Make {
  ocrValue : value;
  kycValue : value;
  reason : string
}.
End Mismatch.

Module Result.
(** The returned object; [mismatchResults] is given by its own
    properties. *)
Record t : Type := Make {
  isMatch : bool;
  mismatchResults : gmap string Mismatch.t
}.
End Result.

Section Compare.

(** [compareStrings] of [utils/stringComparison], applied to whatever
    the sanitized objects hold under a field name. *)
Variable compareStrings : value → value → bool.
Variable lib : sanitizers.

(** One [case] of the [switch]: the two assignments. *)
Definition sanitize_with (ocr_name : string) (forOcr : sanitizer)
    (kyc_name : string) (forKyc : sanitizer) (h : heap)
  : heap * (gmap string value * gmap string value) :=
  let '(ocrData', sanitizedOcrData) := forOcr (ocrData h) in
  let '(kycData', sanitizedKycData) := forKyc (kycData h) in
  (Heap ocrData' kycData' (invoked h ++ [ocr_name; kyc_name]),
   (sanitizedOcrData, sanitizedKycData)).

(** The [switch] of lines 98-121: the sanitized pair, or the message of
    the error thrown. *)
Definition select (documentType : string) (h : heap)
  : heap * (string + gmap string value * gmap string value) :=
  let key := toLowerCase documentType in
  if String.eqb key "aadhaar-card" then
    prod_map id inr
      (sanitize_with "sanitizeAadharData" (sanitizeAadharData lib)
         "sanitizeModKycDataAadhar" (sanitizeModKycDataAadhar lib) h)
  else if String.eqb key "passport" then
    prod_map id inr
      (sanitize_with "sanitizePassportData" (sanitizePassportData lib)
         "sanitizeModKycDataPassport" (sanitizeModKycDataPassport lib) h)
  else if String.eqb key "pan-card" then
    prod_map id inr
      (sanitize_with "sanitizePanCardData" (sanitizePanCardData lib)
         "sanitizeModKycDataPanCard" (sanitizeModKycDataPanCard lib) h)
  else if String.eqb key "dl" then
    prod_map id inr
      (sanitize_with "sanitizeDrivingLicenseData"
         (sanitizeDrivingLicenseData lib)
         "sanitizeModKycDataDrivingLicense"
         (sanitizeModKycDataDrivingLicense lib) h)
  else if String.eqb key "voter-id" then
    prod_map id inr
      (sanitize_with "sanitizeVoterIdData" (sanitizeVoterIdData lib)
         "sanitizeModKycDataVoterId" (sanitizeModKycDataVoterId lib) h)
  else
    (h, inl ("Unsupported document type: " +:+ documentType)).

(** Lines 124-135. *)
Definition comparisonResults
    (sanitizedOcrData sanitizedKycData : gmap string value)
  : list Field.t :=
  map (λ field,
         let isMatch := compareStrings (prop sanitizedOcrData field)
                                       (prop sanitizedKycData field) in
         Field.Make field isMatch
           (prop sanitizedOcrData field) (prop sanitizedKycData field))
      (keys sanitizedOcrData).

Definition reason_of (ocrValue kycValue : value) : string :=
  "Mismatch: OCR value (" +:+ to_string ocrValue
    +:+ ") does not match KYC value (" +:+ to_string kycValue +:+ ")".

(** [mismatchResults[field] = entry] on the object created by [{}], given
    by its own properties: the name "__proto__" reaches the setter inherited
    from [Object.prototype], which replaces the object's prototype and adds
    no property of its own; any other name adds or overwrites one. *)
Definition assign (field : string) (entry : Mismatch.t)
    (mismatchResults : gmap string Mismatch.t) : gmap string Mismatch.t :=
  if bool_decide (field = "__proto__") then mismatchResults
  else <[field := entry]> mismatchResults.

(** Lines 138-152: the [forEach] filling [mismatchResults]. *)
Definition collect_mismatches (results : list Field.t)
  : gmap string Mismatch.t :=
  foldl (λ mismatchResults r,
           if negb (Field.isMatch r) then
             assign (Field.field r)
               (Mismatch.Make (Field.ocrValue r) (Field.kycValue r)
                  (reason_of (Field.ocrValue r) (Field.kycValue r)))
               mismatchResults
           else mismatchResults)
        ∅ results.

(** Lines 123-158, after the [switch]. *)
Definition compare_sanitized
    (sanitizedOcrData sanitizedKycData : gmap string value) : Result.t :=
  let results := comparisonResults sanitizedOcrData sanitizedKycData in
  let mismatchResults := collect_mismatches results in
  Result.Make (forallb Field.isMatch results) mismatchResults.

(** [compareDocumentByType]: the heap it leaves, and either the message
    of the error thrown or the returned object. *)
Definition compareDocumentByType (documentType : string) (h : heap)
  : heap * (string + Result.t) :=
  match select documentType h with
  | (h', inl unsupported) => (h', inl unsupported)
  | (h', inr (sanitizedOcrData, sanitizedKycData)) =>
      (h', inr (compare_sanitized sanitizedOcrData sanitizedKycData))
  end.

End Compare.

(** The sanitizer pair registered for each document type, each function
    with the name under which a call to it is traced: the table the
    [case] labels of lines 99-118 spell out. *)
Definition registered (lib : sanitizers) (variant : string)
  : option ((string * sanitizer) * (string * sanitizer)) :=
  if String.eqb variant "aadhaar-card" then
    Some (("sanitizeAadharData", sanitizeAadharData lib),
          ("sanitizeModKycDataAadhar", sanitizeModKycDataAadhar lib))
  else if String.eqb variant "passport" then
    Some (("sanitizePassportData", sanitizePassportData lib),
          ("sanitizeModKycDataPassport", sanitizeModKycDataPassport lib))
  else if String.eqb variant "pan-card" then
    Some (("sanitizePanCardData", sanitizePanCardData lib),
          ("sanitizeModKycDataPanCard", sanitizeModKycDataPanCard lib))
  else if String.eqb variant "dl" then
    Some (("sanitizeDrivingLicenseData", sanitizeDrivingLicenseData lib),
          ("sanitizeModKycDataDrivingLicense",
           sanitizeModKycDataDrivingLicense lib))
  else if String.eqb variant "voter-id" then
    Some (("sanitizeVoterIdData", sanitizeVoterIdData lib),
          ("sanitizeModKycDataVoterId", sanitizeModKycDataVoterId lib))
  else None.

End Ocr.

(* ===================================================================== *)
(** ** services/kyc.js                                                     *)
(* ===================================================================== *)

Module User.
(** A document of the [User] collection, as far as it is read. *)
Record t : Type := Make { firstName : value; lastName : value;
                          email : value; phone : value }.
End User.

Module Kyc.
(** A document of the [Kyc] collection. *)
Record t : Type := Make {
  _id : string;
  userId : string;
  idType : value;
  nationality : value;
  dob : value;
  idNumber : value;
  idIssueDate : value;
  idExpiryDate : value;
  idIssuingCountry : value;
  countryOfResidence : value;
  addressLine1 : value;
  addressLine2 : value;
  city : value;
  state : value;
  zipCode : value;
  selfieImage : value;
  documentImage : value;
  kycStatus : value;
  createdAt : value;
  updatedAt : value
}.

(** [$set: { kycStatus }] *)
Definition set_kycStatus (status : value) (k : t) : t :=
  Make (_id k) (userId k) (idType k) (nationality k) (dob k) (idNumber k)
    (idIssueDate k) (idExpiryDate k) (idIssuingCountry k)
    (countryOfResidence k) (addressLine1 k) (addressLine2 k) (city k)
    (state k) (zipCode k) (selfieImage k) (documentImage k) status
    (createdAt k) (updatedAt k).
End Kyc.

Module Moderation.
Record faceMatch_t : Type :=
  FaceMatch { match_ : value; matchConfidence : value }.

Record liveliness_t : Type :=
  Liveliness { passed : value; livelinessDetails : value;
               livelinessResults : value }.

(** A document of the [Moderation] collection. *)
Record t : Type := Make {
  _id : string;
  kycId : string;
  ocrData : value;
  ocrMatch : value;
  faceMatch : faceMatch_t;
  liveliness : liveliness_t;
  createdAt : value;
  updatedAt : value
}.
End Moderation.

Module KycService.

(** The three collections the service reads and writes.  Submissions and
    users are keyed by identifier; moderation records are a list.  Queries
    are taken to resolve: a rejected query, which the [catch] blocks of
    [getKycById] and [getKycWithModeration] turn into an error of their
    own, is outside the model, and so is any maintenance of [updatedAt] by
    the schema on update. *)
Record db : Type := Db {
  kycs : gmap string Kyc.t;
  users : gmap string User.t;
  moderations : list Moderation.t
}.

Definition validStatuses : list string := ["Pending"; "Verified"; "Rejected"].

(** [validStatuses.includes(v)]: only a string can equal an element. *)
Definition includes (l : list string) (v : value) : bool :=
  match v with
  | VStr s => bool_decide (s ∈ l)
  | _ => false
  end.

(** [Kyc.findByIdAndUpdate(kycId, { kycStatus }, { new: true })]: the
    updated document, or [null] when no document has that identifier. *)
Definition findByIdAndUpdate (kycId : string) (kycStatus : value) (d : db)
  : db * option Kyc.t :=
  match kycs d !! kycId with
  | Some k =>
      let k' := Kyc.set_kycStatus kycStatus k in
      (Db (<[kycId := k']> (kycs d)) (users d) (moderations d), Some k')
  | None => (d, None)
  end.

(** [updateKycStatus], lines 177-184: the database it leaves, and either
    the message of the error thrown or the value resolved. *)
Definition updateKycStatus (kycId : string) (kycStatus : value) (d : db)
  : db * (string + option Kyc.t) :=
  if negb (includes validStatuses kycStatus) then
    (d, inl "Invalid KYC status provided")
  else
    prod_map id inr (findByIdAndUpdate kycId kycStatus d).

(** [Moderation.findOne({ kycId })]: some record naming the submission, the
    first of the list here; the query states no order. *)
Definition findModeration (kycId : string) (d : db) : option Moderation.t :=
  find (λ m, String.eqb (Moderation.kycId m) kycId) (moderations d).

Section Views.

(** The request object and [buildFileUrl] of [utils/buildUrl]. *)
Variable Req : Type.
Variable buildFileUrl : Req → value → value.

(** [`${kyc.userId?.firstName || "N/A"} ${kyc.userId?.lastName || ""}`.trim()]
    on the populated user, [None] when the reference does not resolve. *)
Definition display_name (u : option User.t) : value :=
  VStr (trim (to_string (or (from_option User.firstName VUndefined u)
                            (VStr "N/A"))
              +:+ " "
              +:+ to_string (or (from_option User.lastName VUndefined u)
                                (VStr "")))).

(** [getKycById], lines 187-231: [None] is the [null] returned for an
    unknown identifier. *)
Definition getKycById (kycId : string) (req : Req) (d : db)
  : option value :=
  match kycs d !! kycId with
  | None => None
  | Some kyc =>
      let user := users d !! Kyc.userId kyc in
      Some (VObj (list_to_map [
        ("id", VStr (Kyc._id kyc));
        ("documentType", Kyc.idType kyc);
        ("nationality", Kyc.nationality kyc);
        ("dob", Kyc.dob kyc);
        ("idNumber", Kyc.idNumber kyc);
        ("idIssueDate", Kyc.idIssueDate kyc);
        ("idExpiryDate", Kyc.idExpiryDate kyc);
        ("idIssuingCountry", Kyc.idIssuingCountry kyc);
        ("countryOfResidence", Kyc.countryOfResidence kyc);
        ("addressLine1", Kyc.addressLine1 kyc);
        ("addressLine2", or (Kyc.addressLine2 kyc) (VStr "N/A"));
        ("city", Kyc.city kyc);
        ("state", Kyc.state kyc);
        ("zipCode", Kyc.zipCode kyc);
        ("name", display_name user);
        ("email", or (from_option User.email VUndefined user) (VStr "N/A"));
        ("selfieImage", buildFileUrl req (Kyc.selfieImage kyc));
        ("documentImage", buildFileUrl req (Kyc.documentImage kyc));
        ("kycStatus", Kyc.kycStatus kyc);
        ("createdAt", Kyc.createdAt kyc);
        ("updatedAt", Kyc.updatedAt kyc)
      ]))
  end.

(** Lines 125-140. *)
Definition formatModeration (moderation : Moderation.t) : value :=
  VObj (list_to_map [
    ("id", VStr (Moderation._id moderation));
    ("ocrData", Moderation.ocrData moderation);
    ("ocrMatch", Moderation.ocrMatch moderation);
    ("faceMatch", VObj (list_to_map [
       ("match", Moderation.match_ (Moderation.faceMatch moderation));
       ("matchConfidence",
        Moderation.matchConfidence (Moderation.faceMatch moderation))
     ]));
    ("liveliness", VObj (list_to_map [
       ("passed", Moderation.passed (Moderation.liveliness moderation));
       ("livelinessDetails",
        Moderation.livelinessDetails (Moderation.liveliness moderation));
       ("livelinessResults",
        Moderation.livelinessResults (Moderation.liveliness moderation))
     ]));
    ("createdAt", Moderation.createdAt moderation);
    ("updatedAt", Moderation.updatedAt moderation)
  ]).

(** [getKycWithModeration], lines 107-174: the message of the error
    thrown, or the formatted entry. *)
Definition getKycWithModeration (kycId : string) (req : Req) (d : db)
  : string + value :=
  match kycs d !! kycId with
  | None =>
      inl ("Error fetching KYC with moderation: " +:+ "KYC entry not found")
  | Some kyc =>
      let user := users d !! Kyc.userId kyc in
      let formattedModeration :=
        from_option formatModeration VUndefined (findModeration kycId d) in
      inr (VObj (list_to_map [
        ("id", VStr (Kyc._id kyc));
        ("documentType", Kyc.idType kyc);
        ("name", display_name user);
        ("email", or (from_option User.email VUndefined user) (VStr "N/A"));
        ("phone", or (from_option User.phone VUndefined user) (VStr "N/A"));
        ("selfieImage", buildFileUrl req (Kyc.selfieImage kyc));
        ("documentImage", buildFileUrl req (Kyc.documentImage kyc));
        ("kycStatus", Kyc.kycStatus kyc);
        ("nationality", Kyc.nationality kyc);
        ("dob", Kyc.dob kyc);
        ("idNumber", Kyc.idNumber kyc);
        ("idIssueDate", Kyc.idIssueDate kyc);
        ("idExpiryDate", Kyc.idExpiryDate kyc);
        ("idIssuingCountry", Kyc.idIssuingCountry kyc);
        ("countryOfResidence", Kyc.countryOfResidence kyc);
        ("addressLine1", Kyc.addressLine1 kyc);
        ("addressLine2", or (Kyc.addressLine2 kyc) (VStr "N/A"));
        ("city", Kyc.city kyc);
        ("state", Kyc.state kyc);
        ("zipCode", Kyc.zipCode kyc);
        ("moderation",
         or formattedModeration (VStr "No moderation data available"))
      ]))
  end.

End Views.

(** The property names of the object [getKycById] returns. *)
Definition owner_fields : list string :=
  ["id"; "documentType"; "nationality"; "dob"; "idNumber"; "idIssueDate";
   "idExpiryDate"; "idIssuingCountry"; "countryOfResidence"; "addressLine1";
   "addressLine2"; "city"; "state"; "zipCode"; "name"; "email";
   "selfieImage"; "documentImage"; "kycStatus"; "createdAt"; "updatedAt"].

(** The property names under which moderation data is stored or shown. *)
Definition moderation_fields : list string :=
  ["moderation"; "ocrData"; "ocrMatch"; "mismatchResults"; "faceMatch";
   "match"; "matchConfidence"; "liveliness"; "passed"; "livelinessDetails";
   "livelinessResults"].

End KycService.

(* ===================================================================== *)
(** ** services/kyc.js: the paginated listings                             *)
(* ===================================================================== *)

Module JsInt.
Import Stdlib.Strings.Ascii.

(** The value of [c] as a digit in the given radix. *)
Definition digit (radix : Z) (c : Ascii.ascii) : option Z :=
  let n := Z.of_nat (Ascii.nat_of_ascii c) in
  let v := if (48 <=? n)%Z && (n <=? 57)%Z then Some (n - 48)%Z
           else if (97 <=? n)%Z && (n <=? 122)%Z then Some (n - 87)%Z
           else if (65 <=? n)%Z && (n <=? 90)%Z then Some (n - 55)%Z
           else None in
  match v with
  | Some d => if (d <? radix)%Z then Some d else None
  | None => None
  end.

(** The number written by the longest prefix of digits; [acc] is the
    number read so far, [None] while no digit has been seen. *)
Fixpoint digits (radix : Z) (acc : option Z) (s : string) : option Z :=
  match s with
  | EmptyString => acc
  | String c s' =>
      match digit radix c with
      | Some d => digits radix (Some (default 0 acc * radix + d)%Z) s'
      | None => acc
      end
  end.

(** [parseInt(s)] without a radix argument: leading white space, a sign,
    a "0x" prefix selecting base sixteen, then the longest run of digits;
    [None] is NaN.  The result is exact, where JavaScript rounds beyond
    2^53. *)
Definition parse (s : string) : option Z :=
  let s := trimStart s in
  let '(sign, s) :=
    match s with
    | String "-"%char rest => ((-1)%Z, rest)
    | String "+"%char rest => (1%Z, rest)
    | _ => (1%Z, s)
    end in
  let '(radix, s) :=
    match s with
    | String "0"%char (String "x"%char rest)
    | String "0"%char (String "X"%char rest) =>
        (16%Z, rest)
    | _ => (10%Z, s)
    end in
  (λ n, (sign * n)%Z) <$> digits radix None s.

(** [parseInt(v)]: the argument is first converted to a string. *)
Definition parseInt (v : value) : option Z := parse (to_string v).

(** [n || d] for a number [n]: NaN and zero are falsy. *)
Definition or_default (n : option Z) (d : Z) : Z :=
  match n with
  | Some n => if (n =? 0)%Z then d else n
  | None => d
  end.

(** [Math.ceil(a / b)] for integers [a] and [b], [b] not zero. *)
Definition ceil_div (a b : Z) : Z := (- ((- a) / b))%Z.

End JsInt.

Module AllPage.
(** [pagination] of [getAllKycEntries]. *)
Record t : Type := Make {
  totalKycs : Z;
  totalPages : Z;
  currentKycs : Z;
  currentPage : Z;
  pageSize : Z
}.
End AllPage.

Module UserPage.
(** [pagination] of [getUserKycEntries]. *)
Record t : Type := Make {
  totalKycs : Z;
  totalPages : Z;
  currentPage : Z;
  pageSize : Z;
  skipUsed : Z
}.
End UserPage.

Module KycListing.
Import JsInt KycService.

(** What [res.status(500).json(...)] sends. *)
Record failure : Type := Failure {
  http_status : Z;
  failure_message : string;
  failure_error : string
}.

Section Listing.

(** The request object, its parsed query string ([req.query]), and
    [buildFileUrl] of [utils/buildUrl]. *)
Variable Req : Type.
Variable query : Req → gmap string value.
Variable buildFileUrl : Req → value → value.

(** [.skip(skip).limit(limit)] awaited on the documents a [find] matches:
    the documents delivered, or the message of the error the driver
    rejects with. *)
Variable window : Z → Z → list Kyc.t → string + list Kyc.t.

(** The documents of the collection, in the order [find] scans them. *)
Definition documents (d : db) : list Kyc.t := (map_to_list (kycs d)).*2.

(** Lines 10-12 and 67-69. *)
Definition page_of (req : Req) : Z :=
  or_default (parseInt (prop (query req) "page")) 1.

Definition limit_of (req : Req) : Z :=
  or_default (parseInt (prop (query req) "limit")) 10.

Definition customSkip_of (req : Req) : Z :=
  or_default (parseInt (prop (query req) "skip")) 0.

(** Lines 15 and 72. *)
Definition skip_of (page limit customSkip : Z) : Z :=
  if (0 <? customSkip)%Z then customSkip else ((page - 1) * limit)%Z.

(** Lines 29-38. *)
Definition format_entry (req : Req) (d : db) (kyc : Kyc.t) : value :=
  let user := users d !! Kyc.userId kyc in
  VObj (list_to_map [
    ("id", VStr (Kyc._id kyc));
    ("documentType", Kyc.idType kyc);
    ("status", Kyc.kycStatus kyc);
    ("name", display_name user);
    ("email", or (from_option User.email VUndefined user) (VStr "N/A"));
    ("selfieImage", buildFileUrl req (Kyc.selfieImage kyc))
  ]).

(** Lines 15-60 of [getAllKycEntries], once [page], [limit] and
    [customSkip] are known. *)
Definition listAll (page limit customSkip : Z) (req : Req) (d : db)
  : failure + list value * AllPage.t :=
  let skip := skip_of page limit customSkip in
  match window skip limit (documents d) with
  | inl error => inl (Failure 500 "Error fetching KYC entries" error)
  | inr kycs =>
      let formattedKycs := map (format_entry req d) kycs in
      let totalKycs := Z.of_nat (length (documents d)) in
      let currentKycs := Z.of_nat (length formattedKycs) in
      let totalPages := ceil_div totalKycs limit in
      inr (formattedKycs,
           AllPage.Make totalKycs totalPages currentKycs page limit)
  end.

(** [getAllKycEntries], lines 7-61: the failure response sent, or the
    pair [{ formattedKycs, pagination }] returned. *)
Definition getAllKycEntries (req : Req) (d : db)
  : failure + list value * AllPage.t :=
  listAll (page_of req) (limit_of req) (customSkip_of req) req d.

(** Lines 80-84. *)
Definition format_history (req : Req) (kyc : Kyc.t) : value :=
  VObj (list_to_map [
    ("id", VStr (Kyc._id kyc));
    ("documentType", Kyc.idType kyc);
    ("selfieImage", buildFileUrl req (Kyc.selfieImage kyc))
  ]).

(** [Kyc.find({ userId })]: the matching documents. *)
Definition documents_of (userId : string) (d : db) : list Kyc.t :=
  filter (λ kyc, Kyc.userId kyc = userId) (documents d).

(** Lines 72-103 of [getUserKycEntries], once [page], [limit] and
    [customSkip] are known. *)
Definition listUser (page limit customSkip : Z) (userId : string)
    (req : Req) (d : db) : string + list value * UserPage.t :=
  let skip := skip_of page limit customSkip in
  match window skip limit (documents_of userId d) with
  | inl error => inl ("Error fetching KYC entries for user: " +:+ error)
  | inr kycs =>
      let formattedKycs := map (format_history req) kycs in
      let totalKycs := Z.of_nat (length (documents_of userId d)) in
      let totalPages := ceil_div totalKycs limit in
      inr (formattedKycs,
           UserPage.Make totalKycs totalPages page limit skip)
  end.

(** [getUserKycEntries], lines 64-104: the message of the error thrown,
    or the pair [{ kycs, pagination }] returned. *)
Definition getUserKycEntries (userId : string) (req : Req) (d : db)
  : string + list value * UserPage.t :=
  listUser (page_of req) (limit_of req) (customSkip_of req) userId req d.

End Listing.

End KycListing.

(* ===================================================================== *)
(** ** Concrete inputs used by the examples                                *)
(* ===================================================================== *)

Module Sample.
Import Ocr KycService.



Definition ocr_fields : gmap string value :=
  <[ "name" := VStr "ASHA RAO" ]>
    (<[ "validState" := VStr "VALID" ]> {[ "idNumber" := VStr "P1234567" ]}).

Definition body_ok : value :=
  VObj (<[ "status" := VStr "ok" ]>
          {[ "data" := VObj {[ "ocr" := VObj ocr_fields ]} ]}).

Definition ok : posted := Resolved (Some (Response 200 body_ok)).

(** Stand-ins for the collaborators of [compareDocumentByType]: sanitizers
    that hand back the fields they are given, and a comparator that reads
    a missing value as the empty string and otherwise follows
    [StringComparison.compareStrings] with the ratio 1/5. *)
Definition keep : sanitizer :=
  λ v, (v, match v with VObj fields => fields | _ => ∅ end).

Definition lib : sanitizers :=
  Sanitizers keep keep keep keep keep keep keep keep keep keep.

Definition text (v : value) : string :=
  match v with
  | VUndefined | VNull => ""
  | _ => to_string v
  end.

Definition fuzzy (a b : value) : bool :=
  StringComparison.compareStrings 1 5 (text a) (text b).

Definition submitted : value := VObj {[ "idNumber" := VStr "P1234567" ]}.

Definition extracted : value :=
  VObj (<[ "name" := VStr "ASHA RAO" ]> {[ "idNumber" := VStr "P1234567" ]}).

(** The heap before and after a passport comparison of the two. *)
Definition before : heap := Heap extracted submitted [].

Definition after : heap :=
  Heap extracted submitted
    ["sanitizePassportData"; "sanitizeModKycDataPassport"].

Definition verdict : Result.t :=
  Result.Make false
    {[ "name" :=
         Mismatch.Make (VStr "ASHA RAO") VUndefined
           "Mismatch: OCR value (ASHA RAO) does not match KYC value (undefined)" ]}.

(** A verified submission. *)
Definition submission : Kyc.t :=
  Kyc.Make "k1" "u1" (VStr "passport") (VStr "IN") (VStr "1990-01-01")
    (VStr "P1234567") (VStr "2015-01-01") (VStr "2025-01-01") (VStr "IN")
    (VStr "IN") (VStr "1 Main Road") (VStr "") (VStr "Pune") (VStr "MH")
    (VStr "411001") (VStr "uploads/selfie.png") (VStr "uploads/doc.png")
    (VStr "Verified") (VStr "2024-01-01") (VStr "2024-01-02").

Definition store : db := Db {[ "k1" := submission ]} ∅ [].

(** The same submission once moderated. *)
Definition moderation : Moderation.t :=
  Moderation.Make "m1" "k1" (VObj {[ "name" := VStr "ASHA RAO" ]})
    (VBool false)
    (Moderation.FaceMatch (VBool true) (VNum 97))
    (Moderation.Liveliness (VBool true) VNull VNull)
    (VStr "2024-01-01") (VStr "2024-01-01").

Definition moderated : db := Db {[ "k1" := submission ]} ∅ [moderation].

(** A [buildFileUrl] that prefixes the host. *)
Definition url (_ : unit) (path : value) : value :=
  VStr ("https://kyc.example/" +:+ to_string path).

End Sample.

Module SampleListing.
Import KycService.

(** A cursor in the manner of the MongoDB driver: a negative skip is
    rejected, and the size of a limit is the number of documents kept. *)
Definition window (skip limit : Z) (docs : list Kyc.t)
  : string + list Kyc.t :=
  if (skip <? 0)%Z then inl "Skip value must be non-negative"
  else inr (take (Z.to_nat (Z.abs limit)) (drop (Z.to_nat skip) docs)).

(** Requests are given by their query object. *)
Definition url (_ : gmap string value) (path : value) : value :=
  VStr ("https://kyc.example/" +:+ to_string path).

Definition second : Kyc.t :=
  Kyc.Make "k2" "u2" (VStr "dl") (VStr "IN") (VStr "1985-05-05")
    (VStr "DL-42") (VStr "2019-01-01") VUndefined (VStr "IN") (VStr "IN")
    (VStr "2 Hill Street") (VStr "Flat 3") (VStr "Pune") (VStr "MH")
    (VStr "411002") (VStr "uploads/s2.png") (VStr "uploads/d2.png")
    (VStr "Pending") (VStr "2024-02-01") (VStr "2024-02-01").

Definition third : Kyc.t :=
  Kyc.Make "k3" "u1" (VStr "pan-card") (VStr "IN") (VStr "1990-01-01")
    (VStr "ABCDE1234F") (VStr "2012-01-01") VUndefined (VStr "IN") (VStr "IN")
    (VStr "1 Main Road") (VStr "") (VStr "Pune") (VStr "MH")
    (VStr "411001") (VStr "uploads/s3.png") (VStr "uploads/d3.png")
    (VStr "Rejected") (VStr "2024-03-01") (VStr "2024-03-02").

Definition asha : User.t :=
  User.Make (VStr "Asha") (VStr "Rao") (VStr "asha@example.org")
    (VStr "+91 20 5550 0100").

Definition store : db :=
  Db (<[ "k1" := Sample.submission ]>
        (<[ "k2" := second ]> {[ "k3" := third ]}))
     {[ "u1" := asha ]}
     [Sample.moderation].

(** A second moderation record for the submission "k1", and the store
    holding both after a record of another submission. *)
Definition repeated : Moderation.t :=
  Moderation.Make "m3" "k1" (VObj ∅) (VBool true)
    (Moderation.FaceMatch (VBool true) (VNum 99))
    (Moderation.Liveliness (VBool true) VNull VNull)
    (VStr "2024-04-01") (VStr "2024-04-01").

Definition unrelated : Moderation.t :=
  Moderation.Make "m2" "k2" (VObj ∅) (VBool true)
    (Moderation.FaceMatch (VBool false) (VNum 12))
    (Moderation.Liveliness (VBool false) VNull VNull)
    (VStr "2024-02-02") (VStr "2024-02-02").

Definition moderated_twice : db :=
  Db (kycs store) (users store) [unrelated; Sample.moderation; repeated].

Definition second_page : gmap string value :=
  <[ "page" := VStr "2" ]> {[ "limit" := VStr "2" ]}.

End SampleListing.

(* ===================================================================== *)
(** ** Status updates                                                      *)
(* ===================================================================== *)

Section StatusUpdate.
Import KycService.

Lemma includes_spec (l : list string) (v : value) :
  includes l v = true ↔ v ∈ VStr <$> l.
Proof.
  destruct v; simpl; rewrite ?bool_decide_eq_true, list_elem_of_fmap;
    try (split; [done | by intros (s' & [=] & _)]).
  split; [by exists s | by intros (s' & [= ->] & ?)].
Qed.

(** C1, as the code has it: [updateKycStatus] goes through exactly for the
    targets Pending, Verified and Rejected, and then resolves with the
    submission carrying the new status ([null] for an unknown identifier);
    for every other target it throws "Invalid KYC status provided" and the
    database is the one it started from. *)
Theorem updateKycStatus_valid_or_unchanged
    (kycId : string) (kycStatus : value) (d : db) :
  (kycStatus ∈ [VStr "Pending"; VStr "Verified"; VStr "Rejected"]
   ∧ (updateKycStatus kycId kycStatus d).2
     = inr (Kyc.set_kycStatus kycStatus <$> (kycs d !! kycId)))
  ∨ ((kycStatus ∉ [VStr "Pending"; VStr "Verified"; VStr "Rejected"])
     ∧ updateKycStatus kycId kycStatus d
       = (d, inl "Invalid KYC status provided")).
Proof.
  unfold updateKycStatus.
  destruct (includes validStatuses kycStatus) eqn:Hin; simpl.
  - left. split; [by apply includes_spec in Hin |].
    unfold findByIdAndUpdate. by destruct (kycs d !! kycId).
  - right. split; [| done].
    intros Hel. apply (includes_spec validStatuses) in Hel. congruence.
Qed.

(** C1 as stated fails: Pending is neither Verified nor Rejected, yet the
    update to Pending goes through and overwrites a Verified status. *)
Lemma updateKycStatus_accepts_Pending :
  (VStr "Pending" ∉ [VStr "Verified"; VStr "Rejected"])
  ∧ (updateKycStatus "k1" (VStr "Pending") Sample.store).2
    = inr (Some (Kyc.set_kycStatus (VStr "Pending") Sample.submission))
  ∧ Kyc.kycStatus
      <$> (kycs (updateKycStatus "k1" (VStr "Pending") Sample.store).1 !! "k1")
    = Some (VStr "Pending")
  ∧ Kyc.kycStatus <$> (kycs Sample.store !! "k1") = Some (VStr "Verified").
Proof.
  split; [by intros [[=] | [[=] | []%elem_of_nil]%elem_of_cons]%elem_of_cons |].
  unfold updateKycStatus, findByIdAndUpdate, Sample.store; simpl.
  rewrite lookup_singleton_eq; simpl.
  rewrite lookup_insert_eq; simpl. done.
Qed.

End StatusUpdate.

(* ===================================================================== *)
(** ** Extraction                                                          *)
(* ===================================================================== *)

Section Extraction.
Import Ocr.

Lemma delete_prop_absent (v : value) (k : string) :
  hasOwn v k = false → delete_prop v k = v.
Proof.
  destruct v; simpl; try done.
  rewrite bool_decide_eq_false, <-eq_None_not_Some.
  intros Hk. by rewrite delete_id.
Qed.

Lemma hasOwn_delete_prop (v : value) (k k' : string) :
  hasOwn (delete_prop v k) k' = if decide (k = k') then false else hasOwn v k'.
Proof.
  destruct v; simpl; try by case_decide.
  case_decide as Hk.
  - subst. rewrite lookup_delete_eq. apply bool_decide_eq_false. by intros [].
  - by rewrite lookup_delete_ne.
Qed.

Lemma get_delete_prop (v : value) (k k' : string) :
  get (delete_prop v k) k' = if decide (k = k') then VUndefined else get v k'.
Proof.
  destruct v; simpl; try by case_decide.
  case_decide as Hk.
  - subst. by rewrite lookup_delete_eq.
  - by rewrite lookup_delete_ne.
Qed.

(** What a successful run of the [try] block returns. *)
Lemma try_extract_inr (p : posted) (v : value) :
  try_extract p = inr v →
  ∃ r, p = Resolved (Some r)
       ∧ v = delete_prop (get (get (data r) "data") "ocr") "validState".
Proof.
  destruct p as [e | [r |]]; simpl; try done.
  intros Hv. exists r. split; [done |].
  repeat match type of Hv with
         | (if ?b then _ else _) = _ => destruct b eqn:?; try done
         end; injection Hv as <-; [done |].
  by rewrite delete_prop_absent.
Qed.




(** C8: a successful extraction returns the OCR section of the response
    without its "validState" property; every other property is the one
    received, and nothing is logged. *)
Theorem extract_strips_validState (p : posted) (v : value) :
  (extractDataFromDocument p).2 = inr v →
  ∃ r, p = Resolved (Some r)
       ∧ v = delete_prop (get (get (data r) "data") "ocr") "validState"
       ∧ hasOwn v "validState" = false
       ∧ get v "validState" = VUndefined
       ∧ (∀ k, k ≠ "validState" →
               hasOwn v k = hasOwn (get (get (data r) "data") "ocr") k
               ∧ get v k = get (get (get (data r) "data") "ocr") k)
       ∧ (extractDataFromDocument p).1 = [].
Proof.
  unfold extractDataFromDocument.
  destruct (try_extract p) as [t | v'] eqn:Htry; simpl; [done |].
  intros [= ->]. destruct (try_extract_inr _ _ Htry) as (r & -> & ->).
  exists r. repeat split.
  - rewrite hasOwn_delete_prop. by case_decide.
  - rewrite get_delete_prop. by case_decide.
  - rewrite hasOwn_delete_prop. by case_decide.
  - rewrite get_delete_prop. by case_decide.
Qed.

Lemma extract_strips_validState_witness :
  (extractDataFromDocument Sample.ok).2
  = inr (VObj (<[ "name" := VStr "ASHA RAO" ]>
                 {[ "idNumber" := VStr "P1234567" ]}))
  ∧ ∃ r, Sample.ok = Resolved (Some r)
         ∧ hasOwn (VObj (<[ "name" := VStr "ASHA RAO" ]>
                           {[ "idNumber" := VStr "P1234567" ]}))
             "validState" = false.
Proof.
  assert ((extractDataFromDocument Sample.ok).2
          = inr (VObj (<[ "name" := VStr "ASHA RAO" ]>
                         {[ "idNumber" := VStr "P1234567" ]}))) as Hok
    by (vm_compute; reflexivity).
  split; [exact Hok |].
  destruct (extract_strips_validState _ _ Hok) as (r & Hr & _ & Hstripped & _).
  exists r. split; [exact Hr | exact Hstripped].
Defined.

End Extraction.

(* ===================================================================== *)
(** ** Comparison                                                          *)
(* ===================================================================== *)

Section Comparison.
Import Ocr.

Context (compareStrings : value → value → bool) (lib : sanitizers).

Lemma elem_of_keys (fields : gmap string value) (k : string) :
  k ∈ keys fields ↔ is_Some (fields !! k).
Proof.
  unfold keys. rewrite list_elem_of_fmap. split.
  - intros ([k' v] & -> & Hkv%elem_of_map_to_list). by exists v.
  - intros [v Hv]. exists (k, v). by rewrite elem_of_map_to_list.
Qed.


Lemma every_isMatch (ocr kyc : gmap string value) :
  forallb Field.isMatch (comparisonResults compareStrings ocr kyc)
  = forallb (λ field, compareStrings (prop ocr field) (prop kyc field))
      (keys ocr).
Proof.
  unfold comparisonResults.
  induction (keys ocr) as [| k ks IH]; [done |]. simpl. by rewrite IH.
Qed.

(** The [forEach] loop, started from any accumulator: a field other than
    "__proto__" ends up holding its own entry when it is among the compared
    ones and its verdict is negative, and every other name keeps what the
    accumulator had. *)
Lemma forEach_lookup (ocr kyc : gmap string value) (ks : list string)
    (acc : gmap string Mismatch.t) (k : string) :
  foldl (λ mismatchResults r,
           if negb (Field.isMatch r) then
             assign (Field.field r)
               (Mismatch.Make (Field.ocrValue r) (Field.kycValue r)
                  (reason_of (Field.ocrValue r) (Field.kycValue r)))
               mismatchResults
           else mismatchResults)
        acc
        (map (λ field,
                Field.Make field
                  (compareStrings (prop ocr field) (prop kyc field))
                  (prop ocr field) (prop kyc field)) ks) !! k
  = if decide (k ∈ ks
               ∧ compareStrings (prop ocr k) (prop kyc k) = false
               ∧ k ≠ "__proto__")
    then Some (Mismatch.Make (prop ocr k) (prop kyc k)
                 (reason_of (prop ocr k) (prop kyc k)))
    else acc !! k.
Proof.
  revert acc. induction ks as [| k' ks IH]; intros acc; cbn [foldl map].
  - rewrite decide_False; [done |]. by intros [[]%elem_of_nil _].
  - rewrite IH.
    destruct (decide (k ∈ ks
                      ∧ compareStrings (prop ocr k) (prop kyc k) = false
                      ∧ k ≠ "__proto__"))
      as [(Hin & Hv & Hk) | Hnot].
    { rewrite decide_True; [done | split; [by right | done]]. }
    cbn [Field.isMatch Field.field Field.ocrValue Field.kycValue].
    destruct (compareStrings (prop ocr k') (prop kyc k')) eqn:Hv'; cbn [negb].
    + rewrite decide_False; [done |].
      intros ([-> | Hin]%elem_of_cons & Hv & Hk); [congruence | by apply Hnot].
    + unfold assign. case_bool_decide as Hproto.
      * rewrite decide_False; [done |].
        intros ([-> | Hin]%elem_of_cons & Hv & Hk); [done | by apply Hnot].
      * destruct (decide (k = k')) as [-> | Hne].
        -- rewrite lookup_insert_eq, decide_True; [done |].
           split; [by left | done].
        -- rewrite lookup_insert_ne by done.
           rewrite decide_False; [done |].
           intros ([-> | Hin]%elem_of_cons & Hv & Hk); [done | by apply Hnot].
Qed.

Lemma collect_mismatches_lookup (ocr kyc : gmap string value) (k : string) :
  collect_mismatches (comparisonResults compareStrings ocr kyc) !! k
  = if decide (is_Some (ocr !! k)
               ∧ compareStrings (prop ocr k) (prop kyc k) = false
               ∧ k ≠ "__proto__")
    then Some (Mismatch.Make (prop ocr k) (prop kyc k)
                 (reason_of (prop ocr k) (prop kyc k)))
    else None.
Proof.
  unfold collect_mismatches, comparisonResults.
  rewrite (forEach_lookup ocr kyc (keys ocr) ∅ k), lookup_empty.
  repeat case_decide; try done;
    rewrite elem_of_keys in *; tauto.
Qed.

Lemma registered_cases (key : string) :
  key ∈ Validation.idTypes →
  key = "aadhaar-card" ∨ key = "passport" ∨ key = "dl" ∨ key = "voter-id"
  ∨ key = "pan-card".
Proof.
  unfold Validation.idTypes. intros Hkey.
  repeat (apply elem_of_cons in Hkey as [-> | Hkey]); try tauto.
  by apply elem_of_nil in Hkey.
Qed.

(** A registered document type runs the two sanitizers of its [case] and
    returns the comparison of what they produce. *)
Lemma supported_returns (documentType : string) (h : heap) :
  toLowerCase documentType ∈ Validation.idTypes →
  ∃ h' ocr kyc,
    select lib documentType h = (h', inr (ocr, kyc))
    ∧ compareDocumentByType compareStrings lib documentType h
      = (h', inr (compare_sanitized compareStrings ocr kyc)).
Proof.
  intros Hkey%registered_cases. unfold compareDocumentByType, select.
  destruct Hkey as [-> | [-> | [-> | [-> | ->]]]];
    cbn [String.eqb Ascii.eqb Bool.eqb];
    destruct (sanitize_with _ _ _ _ h) as [h' [ocr kyc]];
    by exists h', ocr, kyc.
Qed.

(** C3: for a registered document type [compareDocumentByType] returns,
    and [isMatch] is the conjunction of the comparator's verdicts over the
    fields of the sanitized OCR object: it is true exactly when every such
    field matches, and one mismatching field makes it false. *)
Theorem isMatch_is_conjunction (documentType : string) (h : heap) :
  toLowerCase documentType ∈ Validation.idTypes →
  ∃ h' ocr kyc r,
    select lib documentType h = (h', inr (ocr, kyc))
    ∧ compareDocumentByType compareStrings lib documentType h = (h', inr r)
    ∧ Result.isMatch r
      = forallb (λ field, compareStrings (prop ocr field) (prop kyc field))
          (keys ocr)
    ∧ (Result.isMatch r = true
       ↔ ∀ field, is_Some (ocr !! field) →
                  compareStrings (prop ocr field) (prop kyc field) = true)
    ∧ (∀ field, is_Some (ocr !! field) →
                compareStrings (prop ocr field) (prop kyc field) = false →
                Result.isMatch r = false).
Proof.
  intros (h' & ocr & kyc & Hsel & Hret)%(supported_returns _ h).
  exists h', ocr, kyc, (compare_sanitized compareStrings ocr kyc).
  split; [done |]. split; [done |].
  unfold compare_sanitized; cbn [Result.isMatch]. rewrite every_isMatch.
  assert (forallb (λ field, compareStrings (prop ocr field) (prop kyc field))
            (keys ocr) = true
          ↔ ∀ field, is_Some (ocr !! field) →
                     compareStrings (prop ocr field) (prop kyc field) = true)
    as Hall.
  { rewrite forallb_forall. setoid_rewrite <-list_elem_of_In.
    by setoid_rewrite elem_of_keys. }
  split; [done |]. split; [exact Hall |].
  intros field Hfield Hno. apply not_true_is_false. intros Hyes.
  rewrite Hall in Hyes. specialize (Hyes field Hfield). congruence.
Qed.



Lemma not_registered (key : string) :
  key ∉ Validation.idTypes →
  String.eqb key "aadhaar-card" = false
  ∧ String.eqb key "passport" = false
  ∧ String.eqb key "pan-card" = false
  ∧ String.eqb key "dl" = false
  ∧ String.eqb key "voter-id" = false.
Proof.
  intros Hkey. repeat split; apply String.eqb_neq; intros ->; apply Hkey;
    unfold Validation.idTypes; set_solver.
Qed.

(** C6, as the code has it: for a document type whose lower-cased form is
    none of the five registered names, [compareDocumentByType] throws
    "Unsupported document type: ..." and leaves the heap as it found it:
    both argument objects are untouched and no sanitizer was called. *)
Theorem unsupported_type_throws (documentType : string) (h : heap) :
  toLowerCase documentType ∉ Validation.idTypes →
  compareDocumentByType compareStrings lib documentType h
  = (h, inl ("Unsupported document type: " +:+ documentType)).
Proof.
  intros (H1 & H2 & H3 & H4 & H5)%not_registered.
  unfold compareDocumentByType, select.
  by rewrite H1, H2, H3, H4, H5.
Qed.

Lemma registered_pair (variant : string) :
  variant ∈ Validation.idTypes →
  ∃ n1 f1 n2 f2, registered lib variant = Some ((n1, f1), (n2, f2)).
Proof.
  intros Hvariant%registered_cases.
  destruct Hvariant as [-> | [-> | [-> | [-> | ->]]]]; by eexists _, _, _, _.
Qed.

(** C10: the [switch] matches on the lower-cased document type, so any
    spelling whose lower-cased form is a registered name selects the pair
    registered for that name: the OCR-side sanitizer is called on the OCR
    argument, then the submission-side one on the submitted argument, no
    other call is made, and the comparison of their two results is
    returned.  The spelling thus runs exactly as the registered name does
    instead of throwing, while [kycSchema] accepts it only when it is the
    registered name itself. *)
Theorem dispatch_ignores_case (documentType variant : string) (h : heap) :
  variant ∈ Validation.idTypes →
  toLowerCase documentType = variant →
  (∃ n1 f1 n2 f2,
     registered lib variant = Some ((n1, f1), (n2, f2))
     ∧ compareDocumentByType compareStrings lib documentType h
       = (Heap (f1 (ocrData h)).1 (f2 (kycData h)).1
            (invoked h ++ [n1; n2]),
          inr (compare_sanitized compareStrings
                 (f1 (ocrData h)).2 (f2 (kycData h)).2)))
  ∧ compareDocumentByType compareStrings lib documentType h
    = compareDocumentByType compareStrings lib variant h
  ∧ (∃ h' r, compareDocumentByType compareStrings lib documentType h
             = (h', inr r))
  ∧ (Validation.idType_valid (VStr documentType) = true
     ↔ documentType = variant).
Proof.
  intros Hvariant Hlower. split; [| split; [| split]].
  - apply registered_cases in Hvariant.
    unfold compareDocumentByType, select, sanitize_with. rewrite Hlower.
    destruct Hvariant as [-> | [-> | [-> | [-> | ->]]]];
      eexists _, _, _, _; (split; [reflexivity |]);
      cbn [String.eqb Ascii.eqb Bool.eqb];
      match goal with
      | |- context [let '(_, _) := ?f (ocrData h) in _] =>
          destruct (f (ocrData h)) as [ocrData' ocr]
      end;
      match goal with
      | |- context [let '(_, _) := ?f (kycData h) in _] =>
          destruct (f (kycData h)) as [kycData' kyc]
      end; reflexivity.
  - apply registered_cases in Hvariant.
    unfold compareDocumentByType, select.
    destruct Hvariant as [-> | [-> | [-> | [-> | ->]]]]; by rewrite Hlower.
  - rewrite <-Hlower in Hvariant.
    destruct (supported_returns documentType h Hvariant)
      as (h' & ocr & kyc & _ & Hret).
    by eexists _, _.
  - cbn [Validation.idType_valid]. rewrite bool_decide_eq_true. split.
    + intros Hin%registered_cases. rewrite <-Hlower.
      by destruct Hin as [-> | [-> | [-> | [-> | ->]]]].
    + by intros ->.
Qed.

End Comparison.

Section ComparisonExamples.
Import Ocr.

Lemma passport_registered : toLowerCase "Passport" ∈ Validation.idTypes.
Proof. vm_compute. repeat constructor. Defined.

Lemma isMatch_is_conjunction_witness :
  ∃ h' ocr kyc r,
    compareDocumentByType Sample.fuzzy Sample.lib "Passport" Sample.before
    = (h', inr r)
    ∧ Result.isMatch r
      = forallb (λ field, Sample.fuzzy (prop ocr field) (prop kyc field))
          (keys ocr).
Proof.
  destruct (isMatch_is_conjunction Sample.fuzzy Sample.lib "Passport"
              Sample.before passport_registered)
    as (h' & ocr & kyc & r & _ & Hret & Hall & _).
  exists h', ocr, kyc, r. split; [exact Hret | exact Hall].
Defined.





(** The comparison of the sample heap, in full. *)
Example sample_comparison :
  compareDocumentByType Sample.fuzzy Sample.lib "passport" Sample.before
  = (Sample.after, inr Sample.verdict).
Proof. vm_compute. reflexivity. Qed.

Lemma ration_card_not_registered :
  toLowerCase "Ration-Card" ∉ Validation.idTypes.
Proof.
  vm_compute. intros Hin.
  repeat (apply elem_of_cons in Hin as [[=] | Hin]).
  by apply elem_of_nil in Hin.
Defined.

Lemma unsupported_type_throws_witness :
  compareDocumentByType Sample.fuzzy Sample.lib "Ration-Card" Sample.before
  = (Sample.before, inl "Unsupported document type: Ration-Card").
Proof.
  exact (unsupported_type_throws Sample.fuzzy Sample.lib "Ration-Card"
           Sample.before ration_card_not_registered).
Defined.

(** C6 as stated fails: "Passport" is not one of the five registered
    strings, yet the call does not throw; both passport sanitizers run
    and a comparison is returned. *)
Lemma capitalised_type_is_compared :
  ("Passport" ∉ Validation.idTypes)
  ∧ compareDocumentByType Sample.fuzzy Sample.lib "Passport" Sample.before
    = (Sample.after, inr Sample.verdict).
Proof.
  split; [| vm_compute; reflexivity].
  intros Hin. repeat (apply elem_of_cons in Hin as [[=] | Hin]).
  by apply elem_of_nil in Hin.
Qed.

Lemma pan_card_registered : "pan-card" ∈ Validation.idTypes.
Proof. unfold Validation.idTypes. repeat constructor. Defined.

Lemma dispatch_ignores_case_witness :
  ∃ n1 f1 n2 f2,
    registered Sample.lib "pan-card" = Some ((n1, f1), (n2, f2))
    ∧ compareDocumentByType Sample.fuzzy Sample.lib "PAN-CARD" Sample.before
      = (Heap (f1 (ocrData Sample.before)).1 (f2 (kycData Sample.before)).1
           (invoked Sample.before ++ [n1; n2]),
         inr (compare_sanitized Sample.fuzzy
                (f1 (ocrData Sample.before)).2
                (f2 (kycData Sample.before)).2)).
Proof.
  apply (dispatch_ignores_case Sample.fuzzy Sample.lib "PAN-CARD" "pan-card"
           Sample.before pan_card_registered).
  vm_compute. reflexivity.
Defined.

(** The spellings named by C10, run on the sample heap. *)
Example dispatch_Passport :
  Validation.idType_valid (VStr "Passport") = false
  ∧ invoked (compareDocumentByType Sample.fuzzy Sample.lib "Passport"
               Sample.before).1
    = ["sanitizePassportData"; "sanitizeModKycDataPassport"].
Proof. by vm_compute. Qed.

Example dispatch_PAN_CARD :
  Validation.idType_valid (VStr "PAN-CARD") = false
  ∧ invoked (compareDocumentByType Sample.fuzzy Sample.lib "PAN-CARD"
               Sample.before).1
    = ["sanitizePanCardData"; "sanitizeModKycDataPanCard"].
Proof. by vm_compute. Qed.

End ComparisonExamples.

(* ===================================================================== *)
(** ** The comparator                                                      *)
(* ===================================================================== *)

Section Comparator.
Import StringComparison.

Lemma levenshtein_empty_l (b : string) : levenshtein "" b = String.length b.
Proof. by destruct b. Qed.

Lemma levenshtein_empty_r (a : string) : levenshtein a "" = String.length a.
Proof. by destruct a. Qed.

Lemma levenshtein_step (x y : Ascii.ascii) (a b : string) :
  levenshtein (String x a) (String y b)
  = (S (levenshtein a (String y b)) `min` S (levenshtein (String x a) b))
      `min` (levenshtein a b + if Ascii.eqb x y then 0 else 1).
Proof. reflexivity. Qed.

Lemma levenshtein_sym (a b : string) : levenshtein a b = levenshtein b a.
Proof.
  revert b. induction a as [| x a IHa]; intros b.
  - by rewrite levenshtein_empty_l, levenshtein_empty_r.
  - induction b as [| y b IHb].
    + by rewrite levenshtein_empty_l, levenshtein_empty_r.
    + rewrite !levenshtein_step.
      rewrite (IHa (String y b)), IHb, (IHa b), (Ascii.eqb_sym y x).
      lia.
Qed.

(** The distance never exceeds the longer of the two lengths. *)
Lemma levenshtein_bound (a b : string) :
  (levenshtein a b ≤ String.length a `max` String.length b)%nat.
Proof.
  revert b. induction a as [| x a IHa]; intros b.
  - rewrite levenshtein_empty_l. lia.
  - destruct b as [| y b].
    + rewrite levenshtein_empty_r. lia.
    + rewrite levenshtein_step. specialize (IHa b). cbn [String.length].
      destruct (Ascii.eqb x y); lia.
Qed.

(** C7: the comparator gives the same verdict in both argument orders,
    accepts two empty strings, and rejects an empty string against a
    non-empty one, whichever side the empty one is on. *)
Theorem compareStrings_symmetric (threshold_num threshold_den : nat)
    (a b : string) (c : Ascii.ascii) :
  compareStrings threshold_num threshold_den a b
  = compareStrings threshold_num threshold_den b a
  ∧ compareStrings threshold_num threshold_den "" "" = true
  ∧ compareStrings threshold_num threshold_den "" (String c a) = false
  ∧ compareStrings threshold_num threshold_den (String c a) "" = false.
Proof.
  split; [| done].
  destruct a as [| x a], b as [| y b]; try done.
  unfold compareStrings.
  by rewrite (levenshtein_sym (String x a)), Nat.max_comm.
Qed.

Lemma levenshtein_refl (a : string) : levenshtein a a = 0.
Proof.
  induction a as [| x a IHa]; [done |].
  rewrite levenshtein_step, IHa, Ascii.eqb_refl. lia.
Qed.

(** With a positive threshold a non-empty string matches itself, and a
    threshold above one accepts any two non-empty strings. *)
Lemma compareStrings_refl (threshold_num threshold_den : nat) (a : string) :
  (0 < threshold_num)%nat →
  compareStrings threshold_num threshold_den a a = true.
Proof.
  intros Hpos. destruct a as [| x a]; [done |].
  unfold compareStrings. rewrite levenshtein_refl.
  apply Nat.ltb_lt. cbn [String.length]. lia.
Qed.

Lemma compareStrings_lax (threshold_num threshold_den : nat)
    (x y : Ascii.ascii) (a b : string) :
  (threshold_den < threshold_num)%nat →
  compareStrings threshold_num threshold_den (String x a) (String y b) = true.
Proof.
  intros Hlax. unfold compareStrings. apply Nat.ltb_lt.
  pose proof (levenshtein_bound (String x a) (String y b)) as Hbound.
  cbn [String.length] in *. nia.
Qed.

(** The distance on a pair differing by one misread character. *)
Example levenshtein_misread : levenshtein "ASHA RAO" "ASHA RA0" = 1.
Proof. reflexivity. Qed.

Example compareStrings_tolerates_misread :
  compareStrings 1 5 "ASHA RAO" "ASHA RA0" = true
  ∧ compareStrings 1 5 "ASHA RAO" "RAVI RAO" = false.
Proof. by vm_compute. Qed.

End Comparator.

(* ===================================================================== *)
(** ** The submission owner's view                                         *)
(* ===================================================================== *)

Section OwnerView.
Import KycService.

Context (Req : Type) (buildFileUrl : Req → value → value).

Lemma moderation_fields_not_owner (k : string) :
  k ∈ moderation_fields → k ∉ owner_fields.
Proof.
  unfold moderation_fields. intros Hk.
  repeat (apply elem_of_cons in Hk as [-> | Hk]);
    try (by apply elem_of_nil in Hk);
    intros Hin; repeat (apply elem_of_cons in Hin as [[=] | Hin]);
    by apply elem_of_nil in Hin.
Qed.

(** C9: the object [getKycById] returns has the twenty-one properties of
    the submission listed in [owner_fields], among them the status
    [kycStatus], and none under which moderation data travels; and it is
    the same object whatever the moderation collection holds, so no OCR
    verdict, mismatch, face-match or liveliness datum can reach it. *)
Theorem getKycById_hides_moderation (kycId : string) (req : Req) (d : db)
    (v : value) :
  getKycById Req buildFileUrl kycId req d = Some v →
  (∃ kyc fields,
     kycs d !! kycId = Some kyc
     ∧ v = VObj fields
     ∧ dom fields = list_to_set owner_fields
     ∧ fields !! "kycStatus" = Some (Kyc.kycStatus kyc)
     ∧ ∀ k, k ∈ moderation_fields → fields !! k = None)
  ∧ ∀ moderations,
      getKycById Req buildFileUrl kycId req
        (Db (kycs d) (users d) moderations) = Some v.
Proof.
  unfold getKycById. destruct (kycs d !! kycId) as [kyc |] eqn:Hkyc; [| done].
  intros Hv. apply (inj Some) in Hv as <-. split.
  - eexists kyc, _. split; [done |]. split; [reflexivity |].
    split; [by rewrite dom_list_to_map_L |]. split.
    + apply elem_of_list_to_map_1; [| by repeat constructor].
      cbn [fmap list_fmap fst]. apply (bool_decide_unpack _). by vm_compute.
    + intros k Hk. apply not_elem_of_list_to_map_1.
      by apply moderation_fields_not_owner.
  - intros moderations. cbn [kycs users]. by rewrite Hkyc.
Qed.

(** For contrast, the reviewer's view carries the moderation record. *)
Lemma getKycWithModeration_shows_moderation (kycId : string) (req : Req)
    (d : db) (v : value) :
  getKycWithModeration Req buildFileUrl kycId req d = inr v →
  get v "moderation"
  = or (from_option (formatModeration) VUndefined (findModeration kycId d))
       (VStr "No moderation data available").
Proof.
  unfold getKycWithModeration. destruct (kycs d !! kycId); [| done].
  intros [= <-]. cbn [get]. by vm_compute.
Qed.

End OwnerView.

Section OwnerViewExamples.
Import KycService.

Example trim_spaces : trim "  N/A " = "N/A".
Proof. reflexivity. Qed.

(** A reference that does not resolve to a user is shown as "N/A". *)
Example display_name_unresolved : display_name None = VStr "N/A".
Proof. reflexivity. Qed.

Example display_name_first_only :
  display_name (Some (User.Make (VStr "Asha") VUndefined VNull VNull))
  = VStr "Asha".
Proof. reflexivity. Qed.

Lemma getKycById_hides_moderation_witness :
  ∃ v, getKycById unit Sample.url "k1" () Sample.moderated = Some v
       ∧ get v "kycStatus" = VStr "Verified"
       ∧ get v "moderation" = VUndefined
       ∧ ∀ moderations,
           getKycById unit Sample.url "k1" ()
             (Db (kycs Sample.moderated) (users Sample.moderated) moderations)
           = Some v.
Proof.
  eexists. split; [vm_compute; reflexivity |].
  split; [vm_compute; reflexivity |]. split; [vm_compute; reflexivity |].
  apply (getKycById_hides_moderation unit Sample.url "k1" () Sample.moderated).
  vm_compute. reflexivity.
Defined.

Example reviewer_sees_ocrMatch :
  ∃ v, getKycWithModeration unit Sample.url "k1" () Sample.moderated = inr v
       ∧ get (get v "moderation") "ocrMatch" = VBool false.
Proof. eexists. split; vm_compute; reflexivity. Qed.

End OwnerViewExamples.

(* ===================================================================== *)
(** ** Extraction: when it succeeds and what it logs                       *)
(* ===================================================================== *)

Section ExtractionOutcome.
Import Ocr.

Lemma is_string_get_truthy (v : value) (k s : string) :
  is_string (get v k) s = true → truthy v = true.
Proof. by destruct v. Qed.

(** The extraction returns data exactly when the request resolved with a
    body whose status is "ok" and whose nested data and OCR section are
    both truthy, the OCR section having no property of its own named
    "hasOwnProperty". *)
Theorem extract_succeeds_iff (p : posted) :
  (∃ v, (extractDataFromDocument p).2 = inr v)
  ↔ ∃ r, p = Resolved (Some r)
         ∧ is_string (get (data r) "status") "ok" = true
         ∧ truthy (get (data r) "data") = true
         ∧ truthy (get (get (data r) "data") "ocr") = true
         ∧ hasOwn (get (get (data r) "data") "ocr") "hasOwnProperty" = false.
Proof.
  unfold extractDataFromDocument. split.
  - intros [v Hv]. destruct p as [e | [r |]]; simpl in Hv; try done.
    exists r. split; [done |].
    destruct (truthy (data r)); simpl in Hv; [| done].
    destruct (is_string (get (data r) "status") "ok"); simpl in Hv; [| done].
    destruct (truthy (get (data r) "data")); simpl in Hv; [| done].
    destruct (truthy (get (get (data r) "data") "ocr")); simpl in Hv; [| done].
    by destruct (hasOwn (get (get (data r) "data") "ocr") "hasOwnProperty").
  - intros (r & -> & Hok & Hdata & Hocr & Hshadow). simpl.
    rewrite (is_string_get_truthy _ _ _ Hok), Hok, Hdata, Hocr, Hshadow. simpl.
    destruct (hasOwn _ "validState"); by eexists.
Qed.

(** Nothing is logged on success and at most two lines on failure; the
    "API Error Response" line appears exactly when the request was rejected
    with a response attached, and carries that response's status and
    body. *)
Theorem extract_log_shape (p : posted) :
  ((extractDataFromDocument p).1 = []
   ↔ ∃ v, (extractDataFromDocument p).2 = inr v)
  ∧ (∀ s b, ApiErrorResponse s b ∈ (extractDataFromDocument p).1
            ↔ ∃ e r, p = Rejected e ∧ error_response e = Some r
                     ∧ s = status r ∧ b = data r)
  ∧ (length (extractDataFromDocument p).1 ≤ 2)%nat.
Proof.
  unfold extractDataFromDocument.
  destruct (try_extract p) as [t | v] eqn:Htry; simpl.
  - split; [split; [done | by intros [v [=]]] |]. split.
    + intros s b. unfold catch_log. rewrite elem_of_cons. split.
      * intros [[=] | Hin].
        destruct t as [msg | msg | e]; simpl in Hin;
          try (by apply elem_of_nil in Hin).
        destruct (error_response e) as [r |] eqn:Hr;
          [| by apply elem_of_nil in Hin].
        apply list_elem_of_singleton in Hin as [= -> ->].
        exists e, r. split; [| done].
        destruct p as [e' | [r' |]]; simpl in Htry; try done;
          [by injection Htry as -> |].
        repeat match type of Htry with
               | (if ?c then _ else _) = _ => destruct c; try done
               end.
      * intros (e & r & -> & Hr & -> & ->). right.
        injection Htry as <-. simpl. rewrite Hr. by left.
    + unfold catch_log. destruct (thrown_response t); simpl; lia.
  - split; [split; [by eexists | done] |]. split; [| lia].
    intros s b. split; [by intros ?%elem_of_nil |].
    intros (e & r & -> & _). by simpl in Htry.
Qed.

End ExtractionOutcome.

(* ===================================================================== *)
(** ** Comparison: how the two outputs relate                              *)
(* ===================================================================== *)

Section ComparisonOutcome.
Import Ocr.

Context (compareStrings : value → value → bool) (lib : sanitizers).

(** A run that returns went through one [case] of the [switch]. *)
Lemma compareDocumentByType_inr (documentType : string) (h h' : heap)
    (r : Result.t) :
  compareDocumentByType compareStrings lib documentType h = (h', inr r) →
  ∃ ocr kyc,
    select lib documentType h = (h', inr (ocr, kyc))
    ∧ r = compare_sanitized compareStrings ocr kyc.
Proof.
  unfold compareDocumentByType.
  destruct (select lib documentType h) as [h'' [msg | [ocr kyc]]]; [done |].
  intros [= -> <-]. by exists ocr, kyc.
Qed.

Lemma compareDocumentByType_select (documentType : string) (h h' : heap)
    (ocr kyc : gmap string value) :
  select lib documentType h = (h', inr (ocr, kyc)) →
  compareDocumentByType compareStrings lib documentType h
  = (h', inr (compare_sanitized compareStrings ocr kyc)).
Proof. unfold compareDocumentByType. by intros ->. Qed.

Lemma all_match_iff (ocr kyc : gmap string value) :
  Result.isMatch (compare_sanitized compareStrings ocr kyc) = true
  ↔ ∀ field, is_Some (ocr !! field) →
             compareStrings (prop ocr field) (prop kyc field) = true.
Proof.
  unfold compare_sanitized; cbn [Result.isMatch].
  rewrite every_isMatch, forallb_forall.
  setoid_rewrite <-list_elem_of_In. by setoid_rewrite elem_of_keys.
Qed.

Lemma all_match_no_mismatch (ocr kyc : gmap string value) :
  (∀ field, is_Some (ocr !! field) →
            compareStrings (prop ocr field) (prop kyc field) = true) →
  Result.mismatchResults (compare_sanitized compareStrings ocr kyc) = ∅.
Proof.
  intros Hall. unfold compare_sanitized; cbn [Result.mismatchResults].
  apply map_empty. intros field. rewrite collect_mismatches_lookup.
  rewrite decide_False; [done |]. intros (Hfield & Hno & _).
  specialize (Hall field Hfield). congruence.
Qed.

Lemma no_mismatch_all_match (ocr kyc : gmap string value) :
  ocr !! "__proto__" = None →
  Result.mismatchResults (compare_sanitized compareStrings ocr kyc) = ∅ →
  ∀ field, is_Some (ocr !! field) →
           compareStrings (prop ocr field) (prop kyc field) = true.
Proof.
  unfold compare_sanitized; cbn [Result.mismatchResults].
  rewrite map_empty. intros Hproto Hnone field Hfield.
  specialize (Hnone field). rewrite collect_mismatches_lookup in Hnone.
  case_decide as Hdec; [done |]. apply not_false_is_true. intros Hno.
  apply Hdec. split; [done |]. split; [done |]. intros ->.
  rewrite Hproto in Hfield. by destruct Hfield.
Qed.

(** The two outputs agree: a document reported as matching has an empty
    [mismatchResults]; and when the sanitized OCR object has no field
    named "__proto__", an empty [mismatchResults] means the document is
    reported as matching. *)
Theorem isMatch_iff_no_mismatch (documentType : string) (h h' : heap)
    (r : Result.t) :
  compareDocumentByType compareStrings lib documentType h = (h', inr r) →
  (Result.isMatch r = true → Result.mismatchResults r = ∅)
  ∧ (∀ ocr kyc,
       select lib documentType h = (h', inr (ocr, kyc)) →
       ocr !! "__proto__" = None →
       Result.mismatchResults r = ∅ → Result.isMatch r = true).
Proof.
  intros (ocr & kyc & Hsel & ->)%compareDocumentByType_inr. split.
  - intros Hmatch. apply all_match_no_mismatch. by apply all_match_iff.
  - intros ocr' kyc' Hsel' Hproto Hnone. rewrite Hsel in Hsel'.
    injection Hsel' as <- <-. apply all_match_iff.
    by apply no_mismatch_all_match.
Qed.

(** A sanitized OCR object without any field passes: the document is
    reported as matching, with no mismatch, whatever was submitted. *)
Theorem empty_ocr_passes (documentType : string) (h h' : heap)
    (kyc : gmap string value) :
  select lib documentType h = (h', inr (∅, kyc)) →
  compareDocumentByType compareStrings lib documentType h
  = (h', inr (Result.Make true ∅)).
Proof.
  intros Hsel. rewrite (compareDocumentByType_select _ _ _ _ _ Hsel).
  unfold compare_sanitized, comparisonResults, keys.
  by rewrite map_to_list_empty.
Qed.

(** Only the fields of the sanitized OCR object are consulted: two
    submissions whose sanitized forms agree on those fields get the same
    verdict and the same mismatches, however else they differ. *)
Theorem submitted_only_fields_ignored (documentType : string)
    (h1 h1' h2 h2' : heap) (ocr kyc1 kyc2 : gmap string value) :
  select lib documentType h1 = (h1', inr (ocr, kyc1)) →
  select lib documentType h2 = (h2', inr (ocr, kyc2)) →
  (∀ field, is_Some (ocr !! field) → prop kyc1 field = prop kyc2 field) →
  (compareDocumentByType compareStrings lib documentType h1).2
  = (compareDocumentByType compareStrings lib documentType h2).2.
Proof.
  intros Hsel1 Hsel2 Hagree.
  rewrite (compareDocumentByType_select _ _ _ _ _ Hsel1),
    (compareDocumentByType_select _ _ _ _ _ Hsel2).
  cbn [snd]. apply (f_equal inr). unfold compare_sanitized.
  assert (comparisonResults compareStrings ocr kyc1
          = comparisonResults compareStrings ocr kyc2) as ->; [| done].
  unfold comparisonResults. apply map_ext_in. intros field Hin.
  apply list_elem_of_In, elem_of_keys in Hin. by rewrite (Hagree field Hin).
Qed.

(** With a comparator that accepts equal values, a submission whose
    sanitized form repeats every sanitized OCR field is a full match. *)
Theorem full_match (documentType : string) (h h' : heap)
    (ocr kyc : gmap string value) :
  (∀ v, compareStrings v v = true) →
  select lib documentType h = (h', inr (ocr, kyc)) →
  (∀ field, is_Some (ocr !! field) → prop kyc field = prop ocr field) →
  compareDocumentByType compareStrings lib documentType h
  = (h', inr (Result.Make true ∅)).
Proof.
  intros Hrefl Hsel Hsame.
  rewrite (compareDocumentByType_select _ _ _ _ _ Hsel). do 2 f_equal.
  assert (∀ field, is_Some (ocr !! field) →
                   compareStrings (prop ocr field) (prop kyc field) = true)
    as Hall.
  { intros field Hfield. by rewrite (Hsame field Hfield). }
  pose proof (proj2 (all_match_iff ocr kyc) Hall) as Hmatch.
  pose proof (all_match_no_mismatch ocr kyc Hall) as Hnone.
  destruct (compare_sanitized compareStrings ocr kyc) as [m ms].
  cbn in Hmatch, Hnone. by subst.
Qed.

(** Every document type [kycSchema] admits is one the comparison
    supports: a validated [idType] never meets "Unsupported document
    type". *)
Theorem schema_types_are_supported (v : value) (h : heap) :
  Validation.idType_valid v = true →
  ∃ documentType h' r,
    v = VStr documentType
    ∧ compareDocumentByType compareStrings lib documentType h = (h', inr r).
Proof.
  destruct v as [| | | | s | | |]; try done. cbn [Validation.idType_valid].
  rewrite bool_decide_eq_true. intros Hs.
  assert (toLowerCase s ∈ Validation.idTypes) as Hlower.
  { apply registered_cases in Hs as [-> | [-> | [-> | [-> | ->]]]];
      vm_compute; repeat constructor. }
  destruct (supported_returns compareStrings lib s h Hlower)
    as (h' & ocr & kyc & _ & Hret).
  by eexists s, h', _.
Qed.

End ComparisonOutcome.

Section ComparisonOutcomeExamples.
Import Ocr.

Lemma sample_full_match :
  compareDocumentByType Sample.fuzzy Sample.lib "passport"
    (Heap Sample.submitted Sample.submitted [])
  = (Heap Sample.submitted Sample.submitted
       ["sanitizePassportData"; "sanitizeModKycDataPassport"],
     inr (Result.Make true ∅)).
Proof. vm_compute. reflexivity. Defined.

Lemma isMatch_iff_no_mismatch_witness :
  compareDocumentByType Sample.fuzzy Sample.lib "passport"
    (Heap Sample.submitted Sample.submitted [])
  = (Heap Sample.submitted Sample.submitted
       ["sanitizePassportData"; "sanitizeModKycDataPassport"],
     inr (Result.Make true ∅))
  ∧ Result.mismatchResults (Result.Make true ∅) = ∅.
Proof.
  split; [exact sample_full_match |].
  exact (proj1 (isMatch_iff_no_mismatch Sample.fuzzy Sample.lib "passport"
                  _ _ _ sample_full_match) eq_refl).
Defined.

Lemma empty_ocr_passes_witness :
  compareDocumentByType Sample.fuzzy Sample.lib "dl"
    (Heap (VObj ∅) Sample.submitted [])
  = (Heap (VObj ∅) Sample.submitted
       ["sanitizeDrivingLicenseData"; "sanitizeModKycDataDrivingLicense"],
     inr (Result.Make true ∅)).
Proof.
  apply (empty_ocr_passes Sample.fuzzy Sample.lib "dl" _ _
           {[ "idNumber" := VStr "P1234567" ]}).
  vm_compute. reflexivity.
Defined.

Lemma submitted_only_fields_ignored_witness :
  (compareDocumentByType Sample.fuzzy Sample.lib "voter-id"
     (Heap Sample.submitted Sample.submitted [])).2
  = (compareDocumentByType Sample.fuzzy Sample.lib "voter-id"
       (Heap Sample.submitted Sample.extracted [])).2.
Proof.
  apply (submitted_only_fields_ignored Sample.fuzzy Sample.lib "voter-id"
           _ (Heap Sample.submitted Sample.submitted
                ["sanitizeVoterIdData"; "sanitizeModKycDataVoterId"])
           _ (Heap Sample.submitted Sample.extracted
                ["sanitizeVoterIdData"; "sanitizeModKycDataVoterId"])
           {[ "idNumber" := VStr "P1234567" ]}
           {[ "idNumber" := VStr "P1234567" ]}
           (<[ "name" := VStr "ASHA RAO" ]>
              {[ "idNumber" := VStr "P1234567" ]}));
    [vm_compute; reflexivity | vm_compute; reflexivity |].
  intros field [v Hv]. apply lookup_singleton_Some in Hv as [<- _].
  vm_compute. reflexivity.
Defined.

Lemma exact_refl (v : value) :
  bool_decide (to_string v = to_string v) = true.
Proof. by apply bool_decide_eq_true. Defined.

Lemma full_match_witness :
  compareDocumentByType (λ a b, bool_decide (to_string a = to_string b))
    Sample.lib "aadhaar-card" (Heap Sample.submitted Sample.extracted [])
  = (Heap Sample.submitted Sample.extracted
       ["sanitizeAadharData"; "sanitizeModKycDataAadhar"],
     inr (Result.Make true ∅)).
Proof.
  apply (full_match (λ a b, bool_decide (to_string a = to_string b))
           Sample.lib "aadhaar-card" _ _
           {[ "idNumber" := VStr "P1234567" ]}
           (<[ "name" := VStr "ASHA RAO" ]>
              {[ "idNumber" := VStr "P1234567" ]}) exact_refl);
    [vm_compute; reflexivity |].
  intros field [v Hv]. apply lookup_singleton_Some in Hv as [<- _].
  vm_compute. reflexivity.
Defined.

Lemma schema_types_are_supported_witness :
  ∃ documentType h' r,
    VStr "voter-id" = VStr documentType
    ∧ compareDocumentByType Sample.fuzzy Sample.lib documentType Sample.before
      = (h', inr r).
Proof.
  apply (schema_types_are_supported Sample.fuzzy Sample.lib (VStr "voter-id")
           Sample.before).
  vm_compute. reflexivity.
Defined.

End ComparisonOutcomeExamples.

(* ===================================================================== *)
(** ** Status updates and the two single-entry views                       *)
(* ===================================================================== *)

Section StoreAndViews.
Import KycService.

Context (Req : Type) (buildFileUrl : Req → value → value).

Lemma includes_valid (s : string) :
  s ∈ validStatuses → includes validStatuses (VStr s) = true.
Proof. intros Hs. by apply bool_decide_eq_true. Qed.

Lemma set_kycStatus_twice (s1 s2 : value) (k : Kyc.t) :
  Kyc.set_kycStatus s2 (Kyc.set_kycStatus s1 k) = Kyc.set_kycStatus s2 k.
Proof. by destruct k. Qed.

(** A status written is the status read: after updating a known
    submission to a valid status, whatever its status was, the call
    resolves with a submission carrying that status, and [getKycById]
    shows the new status and every other property as before, [updatedAt]
    apart, which the schema may maintain on its own. *)
Theorem status_read_after_write (kycId s : string) (req : Req) (d : db)
    (kyc : Kyc.t) :
  s ∈ validStatuses →
  kycs d !! kycId = Some kyc →
  ∃ d' kyc' v v0,
    updateKycStatus kycId (VStr s) d = (d', inr (Some kyc'))
    ∧ Kyc.kycStatus kyc' = VStr s
    ∧ getKycById Req buildFileUrl kycId req d = Some v0
    ∧ getKycById Req buildFileUrl kycId req d' = Some v
    ∧ get v "kycStatus" = VStr s
    ∧ ∀ k, k ≠ "kycStatus" → k ≠ "updatedAt" → get v k = get v0 k.
Proof.
  intros Hs Hkyc. unfold updateKycStatus, findByIdAndUpdate.
  rewrite (includes_valid s Hs), Hkyc. cbn [negb prod_map fst snd id].
  eexists _, _, _, _. split; [reflexivity |]. split; [reflexivity |].
  unfold getKycById. cbn [kycs users]. rewrite Hkyc, lookup_insert_eq.
  split; [reflexivity |]. split; [reflexivity |]. split; [by vm_compute |].
  intros k Hk Hupdated. destruct (decide (k ∈ owner_fields)) as [Hin | Hout].
  - unfold owner_fields in Hin.
    repeat (apply elem_of_cons in Hin as [-> | Hin]);
      try (by apply elem_of_nil in Hin); try done;
      vm_compute; reflexivity.
  - cbn [get]. by rewrite !not_elem_of_list_to_map_1.
Qed.

(** An update touches one submission only: every other submission reads
    the same in both views, and users and moderation records are kept. *)
Theorem status_update_frame (kycId other : string) (status : value)
    (req : Req) (d : db) :
  kycId ≠ other →
  getKycById Req buildFileUrl other req (updateKycStatus kycId status d).1
  = getKycById Req buildFileUrl other req d
  ∧ getKycWithModeration Req buildFileUrl other req
      (updateKycStatus kycId status d).1
    = getKycWithModeration Req buildFileUrl other req d
  ∧ users (updateKycStatus kycId status d).1 = users d
  ∧ moderations (updateKycStatus kycId status d).1 = moderations d.
Proof.
  intros Hne. unfold updateKycStatus, findByIdAndUpdate.
  destruct (includes validStatuses status); cbn [negb]; [| done].
  destruct (kycs d !! kycId) as [kyc |]; cbn [prod_map fst id]; [| done].
  unfold getKycById, getKycWithModeration, findModeration.
  cbn [kycs users moderations]. by rewrite lookup_insert_ne.
Qed.

(** An update never creates a submission: for an unknown identifier the
    database is left as it was, and a valid status resolves with [null]. *)
Theorem status_update_unknown (kycId : string) (status : value) (d : db) :
  kycs d !! kycId = None →
  (updateKycStatus kycId status d).1 = d
  ∧ (status ∈ VStr <$> validStatuses →
     (updateKycStatus kycId status d).2 = inr None).
Proof.
  intros Hnone. unfold updateKycStatus, findByIdAndUpdate. rewrite Hnone.
  split.
  - by destruct (includes validStatuses status).
  - intros Hin%includes_spec. by rewrite Hin.
Qed.

(** The last writer wins: two valid updates of one submission in a row
    leave the database, and resolve, as the second alone would. *)
Theorem status_last_writer_wins (kycId s1 s2 : string) (d : db) :
  s1 ∈ validStatuses → s2 ∈ validStatuses →
  updateKycStatus kycId (VStr s2) (updateKycStatus kycId (VStr s1) d).1
  = updateKycStatus kycId (VStr s2) d.
Proof.
  intros H1 H2. unfold updateKycStatus, findByIdAndUpdate.
  rewrite (includes_valid s1 H1), (includes_valid s2 H2). cbn [negb].
  destruct (kycs d !! kycId) as [kyc |] eqn:Hkyc;
    cbn [prod_map fst snd id kycs users moderations].
  - rewrite lookup_insert_eq. cbn [prod_map fst snd id kycs users moderations].
    by rewrite insert_insert_eq, set_kycStatus_twice.
  - by rewrite Hkyc.
Qed.

(** The reviewer's view repeats the owner's view on every property of the
    owner's view except the two timestamps of the submission, which it
    does not carry. *)
Theorem reviewer_view_extends_owner_view (kycId : string) (req : Req)
    (d : db) (kyc : Kyc.t) :
  kycs d !! kycId = Some kyc →
  ∃ v w,
    getKycById Req buildFileUrl kycId req d = Some v
    ∧ getKycWithModeration Req buildFileUrl kycId req d = inr w
    ∧ (∀ k, k ∈ owner_fields → k ≠ "createdAt" → k ≠ "updatedAt" →
            get w k = get v k)
    ∧ get w "createdAt" = VUndefined
    ∧ get w "updatedAt" = VUndefined.
Proof.
  intros Hkyc. unfold getKycById, getKycWithModeration. rewrite Hkyc.
  eexists _, _. split; [reflexivity |]. split; [reflexivity |].
  split; [| split; by vm_compute].
  intros k Hin Hc Hu. unfold owner_fields in Hin.
  repeat (apply elem_of_cons in Hin as [-> | Hin]);
    try (by apply elem_of_nil in Hin); try done;
    vm_compute; reflexivity.
Qed.

Lemma findModeration_none (kycId : string) (d : db) :
  Forall (λ m, Moderation.kycId m ≠ kycId) (moderations d) →
  findModeration kycId d = None.
Proof.
  unfold findModeration. induction 1 as [| m ms Hm _ IH]; [done |].
  cbn [find]. by rewrite (proj2 (String.eqb_neq _ _) Hm).
Qed.

Lemma findModeration_some (kycId : string) (d : db) (m0 : Moderation.t) :
  m0 ∈ moderations d → Moderation.kycId m0 = kycId →
  ∃ m, findModeration kycId d = Some m
       ∧ m ∈ moderations d ∧ Moderation.kycId m = kycId.
Proof.
  unfold findModeration. intros Hin Hm0.
  destruct (find _ (moderations d)) as [m |] eqn:Hfind.
  - apply find_some in Hfind as [Hm Heq]. exists m. split; [done |].
    split; [by apply list_elem_of_In | by apply String.eqb_eq].
  - apply list_elem_of_In in Hin.
    pose proof (find_none _ _ Hfind m0 Hin) as Hno. cbn in Hno.
    by apply String.eqb_neq in Hno.
Qed.

(** A submission without a moderation record is shown to the reviewer with
    the text "No moderation data available" in place of the record. *)
Theorem reviewer_view_without_moderation (kycId : string) (req : Req)
    (d : db) (kyc : Kyc.t) :
  kycs d !! kycId = Some kyc →
  Forall (λ m, Moderation.kycId m ≠ kycId) (moderations d) →
  ∃ w, getKycWithModeration Req buildFileUrl kycId req d = inr w
       ∧ get w "moderation" = VStr "No moderation data available".
Proof.
  intros Hkyc Hnone. unfold getKycWithModeration.
  rewrite Hkyc, (findModeration_none _ _ Hnone).
  eexists. split; [reflexivity | by vm_compute].
Qed.

(** A submission that some moderation record names is shown to the
    reviewer with one of the records naming it, formatted with its seven
    properties; when only one record names it, that is the one shown. *)
Theorem reviewer_view_with_moderation (kycId : string) (req : Req)
    (d : db) (kyc : Kyc.t) (m0 : Moderation.t) :
  kycs d !! kycId = Some kyc →
  m0 ∈ moderations d →
  Moderation.kycId m0 = kycId →
  ∃ w fields m,
    getKycWithModeration Req buildFileUrl kycId req d = inr w
    ∧ get w "moderation" = VObj fields
    ∧ m ∈ moderations d
    ∧ Moderation.kycId m = kycId
    ∧ VObj fields = formatModeration m
    ∧ dom fields
      = list_to_set ["id"; "ocrData"; "ocrMatch"; "faceMatch"; "liveliness";
                     "createdAt"; "updatedAt"]
    ∧ get (VObj fields) "ocrMatch" = Moderation.ocrMatch m
    ∧ ((∀ m', m' ∈ moderations d → Moderation.kycId m' = kycId → m' = m0) →
       m = m0).
Proof.
  intros Hkyc Hin Hm0. unfold getKycWithModeration.
  destruct (findModeration_some kycId d m0 Hin Hm0) as (m & Hfind & Hm & Hid).
  rewrite Hkyc, Hfind.
  eexists _, _, m. split; [reflexivity |].
  split; [| split; [done | split; [done |
    split; [unfold formatModeration; reflexivity |
    split; [by rewrite dom_list_to_map_L |
    split; [by vm_compute | by intros Huniq; apply Huniq]]]]]].
  by vm_compute.
Qed.

(** A submission whose user reference does not resolve is shown with
    "N/A" for the name, the e-mail address and the phone number. *)
Theorem unresolved_user_is_not_available (kycId : string) (req : Req)
    (d : db) (kyc : Kyc.t) :
  kycs d !! kycId = Some kyc →
  users d !! Kyc.userId kyc = None →
  ∃ v w,
    getKycById Req buildFileUrl kycId req d = Some v
    ∧ getKycWithModeration Req buildFileUrl kycId req d = inr w
    ∧ get v "name" = VStr "N/A" ∧ get v "email" = VStr "N/A"
    ∧ get w "name" = VStr "N/A" ∧ get w "email" = VStr "N/A"
    ∧ get w "phone" = VStr "N/A".
Proof.
  intros Hkyc Huser. unfold getKycById, getKycWithModeration.
  rewrite Hkyc, Huser. eexists _, _.
  split; [reflexivity |]. split; [reflexivity |].
  repeat split; by vm_compute.
Qed.

End StoreAndViews.

Section StoreAndViewsExamples.
Import KycService.

Lemma rejected_is_valid : "Rejected" ∈ validStatuses.
Proof. unfold validStatuses. repeat constructor. Defined.

Lemma verified_is_valid : "Verified" ∈ validStatuses.
Proof. unfold validStatuses. repeat constructor. Defined.

Lemma sample_submission : kycs Sample.store !! "k1" = Some Sample.submission.
Proof. vm_compute. reflexivity. Defined.

Lemma status_read_after_write_witness :
  ∃ d' kyc' v,
    updateKycStatus "k1" (VStr "Rejected") Sample.store
    = (d', inr (Some kyc'))
    ∧ Kyc.kycStatus kyc' = VStr "Rejected"
    ∧ getKycById unit Sample.url "k1" () d' = Some v
    ∧ get v "kycStatus" = VStr "Rejected".
Proof.
  destruct (status_read_after_write unit Sample.url "k1" "Rejected" ()
              Sample.store Sample.submission rejected_is_valid
              sample_submission)
    as (d' & kyc' & v & v0 & Hupdate & Hcarried & _ & Hread & Hstatus & _).
  exists d', kyc', v. repeat split; assumption.
Defined.

Lemma k1_is_not_k2 : "k1" ≠ "k2".
Proof. discriminate. Defined.

Lemma status_update_frame_witness :
  getKycById unit Sample.url "k2" ()
    (updateKycStatus "k1" (VStr "Rejected") SampleListing.store).1
  = getKycById unit Sample.url "k2" () SampleListing.store.
Proof.
  exact (proj1 (status_update_frame unit Sample.url "k1" "k2"
                  (VStr "Rejected") () SampleListing.store k1_is_not_k2)).
Defined.

Lemma unknown_submission : kycs Sample.store !! "k9" = None.
Proof. vm_compute. reflexivity. Defined.

Lemma status_update_unknown_witness :
  (updateKycStatus "k9" (VStr "Verified") Sample.store).1 = Sample.store.
Proof.
  exact (proj1 (status_update_unknown "k9" (VStr "Verified") Sample.store
                  unknown_submission)).
Defined.

Lemma status_last_writer_wins_witness :
  updateKycStatus "k1" (VStr "Verified")
    (updateKycStatus "k1" (VStr "Rejected") Sample.store).1
  = updateKycStatus "k1" (VStr "Verified") Sample.store.
Proof.
  exact (status_last_writer_wins "k1" "Rejected" "Verified" Sample.store
           rejected_is_valid verified_is_valid).
Defined.

Lemma moderated_submission :
  kycs Sample.moderated !! "k1" = Some Sample.submission.
Proof. vm_compute. reflexivity. Defined.

Lemma reviewer_view_extends_owner_view_witness :
  ∃ v w,
    getKycById unit Sample.url "k1" () Sample.moderated = Some v
    ∧ getKycWithModeration unit Sample.url "k1" () Sample.moderated = inr w
    ∧ get w "createdAt" = VUndefined.
Proof.
  destruct (reviewer_view_extends_owner_view unit Sample.url "k1" ()
              Sample.moderated Sample.submission moderated_submission)
    as (v & w & Hv & Hw & _ & Hcreated & _).
  exists v, w. split; [exact Hv |]. split; [exact Hw | exact Hcreated].
Defined.

Lemma reviewer_view_without_moderation_witness :
  ∃ w, getKycWithModeration unit Sample.url "k1" () Sample.store = inr w
       ∧ get w "moderation" = VStr "No moderation data available".
Proof.
  apply (reviewer_view_without_moderation unit Sample.url "k1" ()
           Sample.store Sample.submission sample_submission).
  vm_compute. constructor.
Defined.

Lemma twice_moderated_submission :
  kycs SampleListing.moderated_twice !! "k1" = Some Sample.submission.
Proof. vm_compute. reflexivity. Defined.

Lemma sample_moderation_listed :
  Sample.moderation ∈ moderations SampleListing.moderated_twice.
Proof. vm_compute. repeat constructor. Defined.

Lemma reviewer_view_with_moderation_witness :
  ∃ w fields m,
    getKycWithModeration unit Sample.url "k1" () SampleListing.moderated_twice
    = inr w
    ∧ get w "moderation" = VObj fields
    ∧ m ∈ moderations SampleListing.moderated_twice
    ∧ Moderation.kycId m = "k1"
    ∧ VObj fields = formatModeration m.
Proof.
  destruct (reviewer_view_with_moderation unit Sample.url "k1" ()
              SampleListing.moderated_twice Sample.submission
              Sample.moderation twice_moderated_submission
              sample_moderation_listed eq_refl)
    as (w & fields & m & Hw & Hmod & Hin & Hid & Hfmt & _).
  exists w, fields, m. repeat split; assumption.
Defined.

Lemma sample_user_unresolved :
  users Sample.store !! Kyc.userId Sample.submission = None.
Proof. vm_compute. reflexivity. Defined.

Lemma unresolved_user_is_not_available_witness :
  ∃ v, getKycById unit Sample.url "k1" () Sample.store = Some v
       ∧ get v "name" = VStr "N/A" ∧ get v "email" = VStr "N/A".
Proof.
  destruct (unresolved_user_is_not_available unit Sample.url "k1" ()
              Sample.store Sample.submission sample_submission
              sample_user_unresolved)
    as (v & w & Hv & _ & Hname & Hemail & _).
  exists v. split; [exact Hv |]. split; [exact Hname | exact Hemail].
Defined.

End StoreAndViewsExamples.

(* ===================================================================== *)
(** ** The paginated listings                                              *)
(* ===================================================================== *)

Section Pagination.
Import JsInt KycService KycListing.

Context (Req : Type) (query : Req → gmap string value)
        (buildFileUrl : Req → value → value)
        (window : Z → Z → list Kyc.t → string + list Kyc.t).

(** On a skip that is not negative and a positive limit, the cursor
    delivers the documents from position [skip] on, [limit] at most. *)
Hypothesis window_spec : ∀ skip limit docs,
  (0 ≤ skip)%Z → (0 < limit)%Z →
  window skip limit docs
  = inr (take (Z.to_nat limit) (drop (Z.to_nat skip) docs)).

Lemma or_default_nonzero (n : option Z) (d : Z) :
  d ≠ 0%Z → or_default n d ≠ 0%Z.
Proof.
  intros Hd. destruct n as [n |]; [| done]. simpl.
  destruct (n =? 0)%Z eqn:Hn; [done |]. by apply Z.eqb_neq.
Qed.

Lemma ceil_div_bounds (a b : Z) :
  (0 < b)%Z → ((ceil_div a b - 1) * b < a ≤ ceil_div a b * b)%Z.
Proof.
  intros Hb. unfold ceil_div.
  pose proof (Z.div_mod (- a) b ltac:(lia)) as Hdiv.
  pose proof (Z.mod_pos_bound (- a) b Hb) as Hmod.
  lia.
Qed.

Lemma chunks_concat {A : Type} (limit n : nat) (l : list A) :
  (0 < limit)%nat → (length l ≤ n * limit)%nat →
  concat (map (λ i, take limit (drop (i * limit) l)) (seq 0 n)) = l.
Proof.
  intros Hlimit. revert l. induction n as [| n IH]; intros l Hlen.
  - destruct l; [done | simpl in Hlen; lia].
  - cbn [seq map concat]. rewrite <-seq_shift, map_map.
    transitivity (take limit l ++ drop limit l)%list; [| apply take_drop].
    f_equal.
    etransitivity; [| apply (IH (drop limit l))].
    + f_equal. apply map_ext. intros i. by rewrite drop_drop.
    + rewrite length_drop. simpl in Hlen. lia.
Qed.

(** The metadata of the full listing: the page size and the page number
    are never zero, the counts are those of the collection and of the
    entries delivered, and with a positive page size [totalPages] is the
    least number of pages that holds every submission. *)
Theorem getAllKycEntries_pagination (req : Req) (d : db)
    (entries : list value) (pg : AllPage.t) :
  getAllKycEntries Req query buildFileUrl window req d = inr (entries, pg) →
  AllPage.pageSize pg ≠ 0%Z
  ∧ AllPage.currentPage pg ≠ 0%Z
  ∧ AllPage.totalKycs pg = Z.of_nat (length (documents d))
  ∧ AllPage.currentKycs pg = Z.of_nat (length entries)
  ∧ ((0 < AllPage.pageSize pg)%Z →
     ((AllPage.totalPages pg - 1) * AllPage.pageSize pg
      < AllPage.totalKycs pg
      ≤ AllPage.totalPages pg * AllPage.pageSize pg)%Z).
Proof.
  unfold getAllKycEntries, listAll.
  destruct (window _ _ _) as [error | kycs]; [done |].
  intros [= <- <-]. cbn.
  split; [by apply or_default_nonzero |].
  split; [by apply or_default_nonzero |].
  split; [done |]. split; [done |]. apply ceil_div_bounds.
Qed.

(** A page within range: for a page number of at least one, a positive
    page size and no custom skip, the listing delivers the submissions at
    positions [(page - 1) * limit] onwards, [limit] at most, and none when
    the page lies beyond the last submission. *)
Theorem getAllKycEntries_window (req : Req) (d : db) :
  (1 ≤ page_of Req query req)%Z →
  (0 < limit_of Req query req)%Z →
  (customSkip_of Req query req ≤ 0)%Z →
  ∃ pg,
    getAllKycEntries Req query buildFileUrl window req d
    = inr (map (format_entry Req buildFileUrl req d)
             (take (Z.to_nat (limit_of Req query req))
                (drop (Z.to_nat ((page_of Req query req - 1)
                                 * limit_of Req query req))
                   (documents d))),
           pg)
    ∧ (AllPage.currentKycs pg ≤ AllPage.pageSize pg)%Z
    ∧ ((AllPage.totalKycs pg
        ≤ (AllPage.currentPage pg - 1) * AllPage.pageSize pg)%Z →
       AllPage.currentKycs pg = 0%Z).
Proof.
  intros Hpage Hlimit Hskip. unfold getAllKycEntries, listAll, skip_of.
  rewrite (proj2 (Z.ltb_ge _ _) Hskip).
  rewrite window_spec by nia.
  eexists. split; [reflexivity |]. cbn.
  rewrite length_map, length_take, length_drop. split; [lia |].
  intros Hbeyond. nia.
Qed.

(** A request without [page], [limit] and [skip] gets the first ten
    submissions, reported as page one of size ten. *)
Theorem getAllKycEntries_defaults (req : Req) (d : db) :
  query req !! "page" = None →
  query req !! "limit" = None →
  query req !! "skip" = None →
  ∃ pg,
    getAllKycEntries Req query buildFileUrl window req d
    = inr (map (format_entry Req buildFileUrl req d)
             (take 10 (documents d)), pg)
    ∧ AllPage.currentPage pg = 1%Z ∧ AllPage.pageSize pg = 10%Z.
Proof.
  intros Hpage Hlimit Hskip.
  unfold getAllKycEntries, listAll, skip_of, page_of, limit_of,
    customSkip_of, prop.
  rewrite Hpage, Hlimit, Hskip.
  change (parseInt (inherited "page")) with (@None Z).
  change (parseInt (inherited "limit")) with (@None Z).
  change (parseInt (inherited "skip")) with (@None Z). cbn.
  rewrite window_spec by lia. by eexists.
Qed.

(** The pages of one size, taken in order while no custom skip is given,
    make up the whole collection: nothing is lost and nothing repeated. *)
Theorem pages_partition_collection (limit : Z) (req : Req) (d : db) :
  (0 < limit)%Z →
  concat (map (λ i : nat,
                 match listAll Req buildFileUrl window
                         (Z.of_nat i + 1) limit 0 req d with
                 | inr (entries, _) => entries
                 | inl _ => []
                 end)
            (seq 0 (Z.to_nat
                      (ceil_div (Z.of_nat (length (documents d))) limit))))
  = map (format_entry Req buildFileUrl req d) (documents d).
Proof.
  intros Hlimit.
  pose proof (ceil_div_bounds (Z.of_nat (length (documents d))) limit Hlimit)
    as Hbounds.
  etransitivity;
    [| apply (chunks_concat (Z.to_nat limit)
                (Z.to_nat (ceil_div (Z.of_nat (length (documents d))) limit))
                (map (format_entry Req buildFileUrl req d) (documents d)));
       [lia | rewrite length_map; nia]].
  f_equal. apply map_ext. intros i. unfold listAll, skip_of.
  change (0 <? 0)%Z with false. cbn iota.
  rewrite window_spec by lia.
  rewrite skipn_map, firstn_map. do 3 f_equal.
  replace (Z.of_nat i + 1 - 1)%Z with (Z.of_nat i) by lia.
  rewrite Z2Nat.inj_mul by lia. by rewrite Nat2Z.id.
Qed.

(** A positive custom skip overrides the page number: the same
    submissions are delivered for every page, while [currentPage] still
    reports the page asked for. *)
Theorem custom_skip_overrides_page (limit customSkip : Z) (req : Req)
    (d : db) :
  (0 < limit)%Z → (0 < customSkip)%Z →
  ∀ page, ∃ pg,
    listAll Req buildFileUrl window page limit customSkip req d
    = inr (map (format_entry Req buildFileUrl req d)
             (take (Z.to_nat limit) (drop (Z.to_nat customSkip) (documents d))),
           pg)
    ∧ AllPage.currentPage pg = page.
Proof.
  intros Hlimit Hskip page. unfold listAll, skip_of.
  rewrite (proj2 (Z.ltb_lt _ _) Hskip), window_spec by lia.
  by eexists.
Qed.

(** A user's history holds that user's submissions only, counts only
    those, and shows for each its identifier, document type and selfie,
    not its status. *)
Theorem getUserKycEntries_only_own (userId : string) (req : Req) (d : db) :
  (1 ≤ page_of Req query req)%Z →
  (0 < limit_of Req query req)%Z →
  (customSkip_of Req query req ≤ 0)%Z →
  ∃ entries pg,
    getUserKycEntries Req query buildFileUrl window userId req d
    = inr (entries, pg)
    ∧ Forall (λ e, ∃ kyc,
                kyc ∈ documents d ∧ Kyc.userId kyc = userId
                ∧ e = format_history Req buildFileUrl req kyc
                ∧ get e "id" = VStr (Kyc._id kyc)
                ∧ get e "status" = VUndefined
                ∧ get e "kycStatus" = VUndefined)
        entries
    ∧ UserPage.totalKycs pg
      = Z.of_nat (length (filter (λ kyc, Kyc.userId kyc = userId)
                            (documents d)))
    ∧ (Z.of_nat (length entries) ≤ UserPage.pageSize pg)%Z.
Proof.
  intros Hpage Hlimit Hskip. unfold getUserKycEntries, listUser, skip_of.
  rewrite (proj2 (Z.ltb_ge _ _) Hskip).
  rewrite window_spec by nia.
  eexists _, _. split; [reflexivity |]. cbn.
  assert (∀ kyc,
            kyc ∈ take (Z.to_nat (limit_of Req query req))
                    (drop (Z.to_nat ((page_of Req query req - 1)
                                     * limit_of Req query req))
                       (documents_of userId d)) →
            kyc ∈ documents d ∧ Kyc.userId kyc = userId) as Hown.
  { intros kyc Hin%subseteq_take%subseteq_drop.
    unfold documents_of in Hin. by apply list_elem_of_filter in Hin as [? ?]. }
  split; [| split].
  - apply List.Forall_forall. intros e (kyc & <- & Hkyc)%in_map_iff.
    apply list_elem_of_In in Hkyc.
    exists kyc. destruct (Hown kyc Hkyc) as [Hdoc Huser].
    repeat split; try done; by vm_compute.
  - done.
  - rewrite length_map, length_take. lia.
Qed.

End Pagination.

Section PaginationExamples.
Import JsInt KycService KycListing.

Lemma sample_window_spec (skip limit : Z) (docs : list Kyc.t) :
  (0 ≤ skip)%Z → (0 < limit)%Z →
  SampleListing.window skip limit docs
  = inr (take (Z.to_nat limit) (drop (Z.to_nat skip) docs)).
Proof.
  intros Hskip Hlimit. unfold SampleListing.window.
  rewrite (proj2 (Z.ltb_ge _ _) Hskip). by rewrite Z.abs_eq by lia.
Defined.

Lemma sample_second_page :
  getAllKycEntries _ id SampleListing.url SampleListing.window
    SampleListing.second_page SampleListing.store
  = inr ([format_entry _ SampleListing.url SampleListing.second_page
            SampleListing.store SampleListing.second],
         AllPage.Make 3 2 1 2 2).
Proof. vm_compute. reflexivity. Defined.

Lemma getAllKycEntries_pagination_witness :
  AllPage.pageSize (AllPage.Make 3 2 1 2 2) ≠ 0%Z
  ∧ AllPage.currentPage (AllPage.Make 3 2 1 2 2) ≠ 0%Z.
Proof.
  destruct (getAllKycEntries_pagination _ _ _ _ _ _ _ _ sample_second_page)
    as (Hsize & Hpage & _).
  split; [exact Hsize | exact Hpage].
Defined.

Lemma getAllKycEntries_window_witness :
  ∃ pg,
    getAllKycEntries _ id SampleListing.url SampleListing.window
      SampleListing.second_page SampleListing.store
    = inr (map (format_entry _ SampleListing.url SampleListing.second_page
                  SampleListing.store)
             (take 2 (drop 2 (documents SampleListing.store))), pg)
    ∧ (AllPage.currentKycs pg ≤ AllPage.pageSize pg)%Z.
Proof.
  destruct (getAllKycEntries_window _ id SampleListing.url
              SampleListing.window sample_window_spec
              SampleListing.second_page SampleListing.store)
    as (pg & Hpage & Hsize & _); [by vm_compute | by vm_compute
                                 | by vm_compute |].
  exists pg. split; [exact Hpage | exact Hsize].
Defined.

Lemma getAllKycEntries_defaults_witness :
  ∃ pg,
    getAllKycEntries _ id SampleListing.url SampleListing.window
      ∅ SampleListing.store
    = inr (map (format_entry _ SampleListing.url ∅ SampleListing.store)
             (take 10 (documents SampleListing.store)), pg)
    ∧ AllPage.currentPage pg = 1%Z ∧ AllPage.pageSize pg = 10%Z.
Proof.
  apply (getAllKycEntries_defaults _ id SampleListing.url SampleListing.window
           sample_window_spec ∅ SampleListing.store);
    vm_compute; reflexivity.
Defined.

Lemma pages_partition_collection_witness :
  concat (map (λ i : nat,
                 match listAll _ SampleListing.url SampleListing.window
                         (Z.of_nat i + 1) 2 0 ∅ SampleListing.store with
                 | inr (entries, _) => entries
                 | inl _ => []
                 end)
            (seq 0 (Z.to_nat
                      (ceil_div
                         (Z.of_nat (length (documents SampleListing.store)))
                         2))))
  = map (format_entry _ SampleListing.url ∅ SampleListing.store)
      (documents SampleListing.store).
Proof.
  apply (pages_partition_collection (gmap string value) SampleListing.url
           SampleListing.window sample_window_spec 2 ∅ SampleListing.store).
  lia.
Defined.

Lemma custom_skip_overrides_page_witness :
  ∃ pg,
    listAll _ SampleListing.url SampleListing.window 7 2 1 ∅
      SampleListing.store
    = inr (map (format_entry _ SampleListing.url ∅ SampleListing.store)
             (take 2 (drop 1 (documents SampleListing.store))), pg)
    ∧ AllPage.currentPage pg = 7%Z.
Proof.
  apply (custom_skip_overrides_page (gmap string value) SampleListing.url
           SampleListing.window sample_window_spec 2 1 ∅
           SampleListing.store); lia.
Defined.

Lemma getUserKycEntries_only_own_witness :
  ∃ entries pg,
    getUserKycEntries _ id SampleListing.url SampleListing.window "u1" ∅
      SampleListing.store = inr (entries, pg)
    ∧ UserPage.totalKycs pg
      = Z.of_nat (length (filter (λ kyc, Kyc.userId kyc = "u1")
                            (documents SampleListing.store))).
Proof.
  destruct (getUserKycEntries_only_own _ id SampleListing.url
              SampleListing.window sample_window_spec "u1" ∅
              SampleListing.store)
    as (entries & pg & Hret & _ & Htotal & _);
    [by vm_compute | by vm_compute | by vm_compute |].
  exists entries, pg. split; [exact Hret | exact Htotal].
Defined.

(** The sample history of the user "u1": two of the three submissions. *)
Example sample_history :
  ∃ pg,
    getUserKycEntries _ id SampleListing.url SampleListing.window "u1" ∅
      SampleListing.store
    = inr ([format_history _ SampleListing.url ∅ SampleListing.third;
            format_history _ SampleListing.url ∅ Sample.submission], pg)
    ∧ UserPage.totalKycs pg = 2%Z ∧ UserPage.totalPages pg = 1%Z.
Proof. eexists. split; [vm_compute; reflexivity | done]. Qed.

(** What [parseInt] makes of some query values. *)
Example parseInt_samples :
  parseInt (VStr "2") = Some 2%Z
  ∧ parseInt (VStr " 12px") = Some 12%Z
  ∧ parseInt (VStr "0x1f") = Some 31%Z
  ∧ parseInt (VStr "-3") = Some (-3)%Z
  ∧ parseInt (VStr "ten") = None
  ∧ parseInt (VStr "") = None
  ∧ parseInt VUndefined = None
  ∧ parseInt (VArr [VStr "4"; VStr "5"]) = Some 4%Z.
Proof. by vm_compute. Qed.

End PaginationExamples.
